(** * PMS5003 dust-sensor driver: a shallow embedding of PMS5003.cpp

    The driver talks to three collaborators of the Arduino core: the
    millisecond clock ([millis]), the serial transport ([Stream::readBytes],
    [yield]) and the sleep-control pin ([pinMode], [digitalWrite]).  They are
    gathered in the interface [Platform]; the driver is written once, over
    any platform, as state-passing code on the members of the object
    ([PMS5003]) and the state of the outside world ([W]).

    - Time.  [millis] reads the clock of the world and leaves the world as it
      is; time passes in the calls that change the world, [readBytes] (which
      may block) and [yield].  What the clock reads is up to the platform:
      [Sim] counts on for ever, [Board] counts in 32 bits as [millis()] does
      and starts again from 0 every 2^32 ms.
    - Integers.  The 64-bit time stamps are differences and sums of readings
      of a 32-bit counter, so they are integers of [Z] without wrap-around;
      the assignments to [uint16_t] and the cast to [int] are written out.
    - The array [buff] is a list of 32 bytes; what it holds before it is
      written is a parameter ([junk]), shown not to matter.
    - Loops.  The two read loops of [getDataInternal] end when a frame is
      complete or the 800 ms budget is spent, which depends on the clock of
      the platform: they take a fuel argument and return [None] when the fuel
      runs out before the loop of the source would end.  More fuel never
      changes a result, and 800 units are enough wherever a read takes at
      least a millisecond and the counter of [millis] does not start again
      from 0 before the budget is spent; where it does, the loops of the
      source may never end, and no fuel is enough.
    - The read loops also return the list of their tests of the timeout
      ([Check]), which the properties use to speak of what happened within
      the budget; the list has no influence on the run.

    The destructor, which frees the [SoftwareSerial] object, is left out;
    of the class [SoftwareSerial], which is not part of the repository, the
    second constructor takes what it needs as parameters. *)

From Stdlib Require Import ZArith List Bool Lia.
From Stdlib Require Import Strings.Byte.
Import ListNotations.
Open Scope Z_scope.

(** ** Bytes and fixed-width integers *)

Definition b2z (b : byte) : Z := Z.of_N (Byte.to_N b).

(** Assignment to a [uint16_t]. *)
Definition to_u16 (z : Z) : Z := z mod 65536.

(** The cast [(int)] of a 64-bit value, [int] being 32 bits wide on the
    boards that provide the [SoftwareSerial] used by the constructor. *)
Definition to_int (z : Z) : Z := (z + 2147483648) mod 4294967296 - 2147483648.

(** [uint16_t(hi)<<8 | uint16_t(lo)], stored in a [uint16_t]. *)
Definition u16_be (hi lo : byte) : Z :=
  to_u16 (Z.lor (Z.shiftl (b2z hi) 8) (b2z lo)).

(** ** The local array [byte buff[32]] *)

Definition BUFF_SIZE : nat := 32.

(** [buff[i]] *)
Definition at_ (buff : list byte) (i : nat) : byte := nth i buff x00.

(** The bytes [bs] stored from [buff + n] on (what [readBytes(buff + n, len)]
    does with the bytes it received). *)
Definition write_at (buff : list byte) (n : nat) (bs : list byte) : list byte :=
  firstn n buff ++ bs ++ skipn (n + length bs) buff.

(** ** The platform *)

Class Platform (W : Type) := {
  (** [millis()]: the clock is read, the world is left as it is *)
  millis : W -> Z;
  (** [_uart->readBytes(p, len)]: the bytes received, at most [len] *)
  readBytes : W -> nat -> list byte * W;
  (** [yield()] *)
  yield : W -> W;
  (** [pinMode(pin, OUTPUT)] *)
  pinModeOutput : W -> Z -> W;
  (** [digitalWrite(pin, level)], [true] for [HIGH] *)
  digitalWrite : W -> Z -> bool -> W;
  readBytes_length :
    forall w len, (length (fst (readBytes w len)) <= len)%nat
}.

(** ** The object *)

Record PMS5003 := mkPMS5003 {
  pm1p0std : Z;
  pm2p5std : Z;
  pm10std : Z;
  pm1p0atm : Z;
  pm2p5atm : Z;
  pm10atm : Z;
  nc0p3um : Z;
  nc0p5um : Z;
  nc1p0um : Z;
  nc2p5um : Z;
  nc5p0um : Z;
  nc10um : Z;
  _isReady : bool;
  _isSleeping : bool;
  (** [Stream* _uart]: [true] when it points to a transport, [false] for NULL *)
  _uart : bool;
  _wakeUpTime : Z;
  _sleepPin : Z
}.

Definition PREHEAT_TIME : Z := 30000.
Definition TRIES_NUM : nat := 3.
Definition READ_TIMEOUT : Z := 800.

Definition set_isReady (d : PMS5003) (b : bool) : PMS5003 :=
  mkPMS5003 (pm1p0std d) (pm2p5std d) (pm10std d) (pm1p0atm d) (pm2p5atm d)
    (pm10atm d) (nc0p3um d) (nc0p5um d) (nc1p0um d) (nc2p5um d) (nc5p0um d)
    (nc10um d) b (_isSleeping d) (_uart d) (_wakeUpTime d) (_sleepPin d).

Definition set_isSleeping (d : PMS5003) (b : bool) : PMS5003 :=
  mkPMS5003 (pm1p0std d) (pm2p5std d) (pm10std d) (pm1p0atm d) (pm2p5atm d)
    (pm10atm d) (nc0p3um d) (nc0p5um d) (nc1p0um d) (nc2p5um d) (nc5p0um d)
    (nc10um d) (_isReady d) b (_uart d) (_wakeUpTime d) (_sleepPin d).

Definition set_wakeUpTime (d : PMS5003) (t : Z) : PMS5003 :=
  mkPMS5003 (pm1p0std d) (pm2p5std d) (pm10std d) (pm1p0atm d) (pm2p5atm d)
    (pm10atm d) (nc0p3um d) (nc0p5um d) (nc1p0um d) (nc2p5um d) (nc5p0um d)
    (nc10um d) (_isReady d) (_isSleeping d) (_uart d) t (_sleepPin d).

Definition set_sleepPin (d : PMS5003) (p : Z) : PMS5003 :=
  mkPMS5003 (pm1p0std d) (pm2p5std d) (pm10std d) (pm1p0atm d) (pm2p5atm d)
    (pm10atm d) (nc0p3um d) (nc0p5um d) (nc1p0um d) (nc2p5um d) (nc5p0um d)
    (nc10um d) (_isReady d) (_isSleeping d) (_uart d) (_wakeUpTime d) p.

(** The twelve data members, in the order of their declaration. *)
Definition measurement (d : PMS5003) : list Z :=
  [pm1p0std d; pm2p5std d; pm10std d; pm1p0atm d; pm2p5atm d; pm10atm d;
   nc0p3um d; nc0p5um d; nc1p0um d; nc2p5um d; nc5p0um d; nc10um d].

(** The twelve assignments that end [getDataInternal]. *)
Definition store_fields (buff : list byte) (d : PMS5003) : PMS5003 :=
  mkPMS5003
    (u16_be (at_ buff 4) (at_ buff 5))
    (u16_be (at_ buff 6) (at_ buff 7))
    (u16_be (at_ buff 8) (at_ buff 9))
    (u16_be (at_ buff 10) (at_ buff 11))
    (u16_be (at_ buff 12) (at_ buff 13))
    (u16_be (at_ buff 14) (at_ buff 15))
    (u16_be (at_ buff 16) (at_ buff 17))
    (u16_be (at_ buff 18) (at_ buff 19))
    (u16_be (at_ buff 20) (at_ buff 21))
    (u16_be (at_ buff 22) (at_ buff 23))
    (u16_be (at_ buff 24) (at_ buff 25))
    (u16_be (at_ buff 26) (at_ buff 27))
    (_isReady d) (_isSleeping d) (_uart d) (_wakeUpTime d) (_sleepPin d).

(** [uint16_t crcSum = 0; for (int i = 0; i < 30; i++) crcSum += buff[i];] *)
Definition crcSum (buff : list byte) : Z :=
  fold_left (fun acc i => to_u16 (acc + b2z (at_ buff i))) (seq 0 30) 0.

Definition frameLength (buff : list byte) : Z :=
  u16_be (at_ buff 2) (at_ buff 3).

Definition crc (buff : list byte) : Z :=
  u16_be (at_ buff 30) (at_ buff 31).

(** The test of line 176, [true] when the frame is refused. *)
Definition bad_data (buff : list byte) : bool :=
  negb (crcSum buff =? crc buff) || negb (frameLength buff =? 28).

(** The [if (m > 0)] of the resync loop (lines 149-160), on the array as
    left by [readBytes]: the new [n] and the new array. *)
Definition on_read (buff1 : list byte) (n m : nat) : nat * list byte :=
  if (0 <? m)%nat then
    if (n =? 0)%nat && Byte.eqb (at_ buff1 0) x42
    then (1%nat, write_at buff1 1 [x00])
    else if (n =? 1)%nat && negb (Byte.eqb (at_ buff1 1) x4d)
    then (0%nat, buff1)
    else (n, buff1)
  else (n, buff1).

(** ** The driver over a platform *)

(** One entry per evaluation of the timeout test in [getDataInternal]: the
    value of [n] and the time elapsed since [startTime] at that test.  The
    list is a record of the run; it does not influence it. *)
Record Check := mkCheck { seen : nat; elapsed : Z }.

Section Driver.

Context {W : Type} `{Platform W}.

(** What the uninitialised array [buff] holds when [getDataInternal] is
    entered. *)
Variable junk : list byte.

(** [byte buff[32];] has [BUFF_SIZE] cells, whatever the list [junk]. *)
Definition fresh_buff : list byte :=
  firstn BUFF_SIZE (junk ++ repeat x00 BUFF_SIZE).

(** The resync loop (lines 146-163).  [Some (true, ...)] when the loop is
    left through its condition, [Some (false, ...)] when it returns 1. *)
Fixpoint resync (fuel : nat) (startTime : Z) (buff : list byte) (n : nat)
    (w : W) : option (bool * list byte * list Check * W) :=
  match fuel with
  | O => None
  | S fuel' =>
      let (bs, w1) := readBytes w 1 in
      let m := length bs in
      let buff1 := write_at buff n bs in
      let '(n2, buff2) := on_read buff1 n m in
      let c := mkCheck n2 (millis w1 - startTime) in
      if READ_TIMEOUT <=? millis w1 - startTime then Some (false, buff2, [c], w1)
      else
        let w2 := yield w1 in
        if negb (Byte.eqb (at_ buff2 0) x42) || negb (Byte.eqb (at_ buff2 1) x4d)
        then
          match resync fuel' startTime buff2 n2 w2 with
          | Some (r, b, cs, w') => Some (r, b, c :: cs, w')
          | None => None
          end
        else Some (true, buff2, [c], w2)
  end.

(** The payload loop (lines 165-171). *)
Fixpoint payload (fuel : nat) (startTime : Z) (buff : list byte) (n : nat)
    (w : W) : option (bool * list byte * list Check * W) :=
  match fuel with
  | O => None
  | S fuel' =>
      let (bs, w1) := readBytes w (BUFF_SIZE - n) in
      let m := length bs in
      let buff1 := write_at buff n bs in
      let n1 := if (0 <? m)%nat then (n + m)%nat else n in
      let c := mkCheck n1 (millis w1 - startTime) in
      if READ_TIMEOUT <=? millis w1 - startTime then Some (false, buff1, [c], w1)
      else
        let w2 := yield w1 in
        if (n1 <? BUFF_SIZE)%nat
        then
          match payload fuel' startTime buff1 n1 w2 with
          | Some (r, b, cs, w') => Some (r, b, c :: cs, w')
          | None => None
          end
        else Some (true, buff1, [c], w2)
  end.

(** Lines 143-171: [Some (Some buff, ...)] with the full buffer, or
    [Some (None, ...)] where the source returns 1. *)
Definition read_frame (fuel : nat) (startTime : Z) (w : W)
    : option (option (list byte) * list Check * W) :=
  let buff := write_at fresh_buff 0 [x00; x00] in
  match resync fuel startTime buff 0 w with
  | None => None
  | Some (false, _, cs, w1) => Some (None, cs, w1)
  | Some (true, buff1, cs, w1) =>
      match payload fuel startTime buff1 2 w1 with
      | None => None
      | Some (false, _, cs', w2) => Some (None, cs ++ cs', w2)
      | Some (true, buff2, cs', w2) => Some (Some buff2, cs ++ cs', w2)
      end
  end.

(** [getDataInternal]: 0 - OK; 1 - timed out; 2 - bad data. *)
Definition getDataInternal (fuel : nat) (startTime : Z) (d : PMS5003) (w : W)
    : option (Z * PMS5003 * W) :=
  match read_frame fuel startTime w with
  | None => None
  | Some (None, _, w') => Some (1, d, w')
  | Some (Some buff, _, w') =>
      if bad_data buff then Some (2, d, w')
      else Some (0, store_fields buff d, w')
  end.

(** The loop of [getData] (lines 123-135) with [tries = TRIES_NUM - i]
    iterations left; the [switch] has no default case. *)
Fixpoint getData_tries (fuel : nat) (tries : nat) (startTime : Z)
    (d : PMS5003) (w : W) : option (Z * PMS5003 * W) :=
  match tries with
  | O => Some (0, d, w)
  | S tries' =>
      match getDataInternal fuel startTime d w with
      | None => None
      | Some (rc, d1, w1) =>
          if rc =? 0 then Some (1, d1, w1)
          else if rc =? 1 then Some (0, d1, w1)
          else if rc =? 2 then getData_tries fuel tries' (millis w1) d1 w1
          else getData_tries fuel tries' startTime d1 w1
      end
  end.

(** [getData]: negative value is seconds left to preheat; 0 - error;
    1 - success. *)
Definition getData (fuel : nat) (d : PMS5003) (w : W)
    : option (Z * PMS5003 * W) :=
  if negb (_uart d) || _isSleeping d then Some (0, d, w)
  else
    let startTime := millis w in
    let timeFromWakeUp := startTime - _wakeUpTime d in
    if timeFromWakeUp <=? PREHEAT_TIME
    then Some (to_int (Z.quot (timeFromWakeUp - PREHEAT_TIME) 1000), d, w)
    else getData_tries fuel TRIES_NUM startTime d w.

Definition init (sleepPin : Z) (sleep : bool) (d : PMS5003) (w : W)
    : PMS5003 * W :=
  let d1 := set_sleepPin (set_isReady d false) sleepPin in
  if 0 <=? _sleepPin d1 then
    let w1 := pinModeOutput w (_sleepPin d1) in
    if sleep
    then (set_isSleeping d1 true, digitalWrite w1 (_sleepPin d1) false)
    else
      let w2 := digitalWrite w1 (_sleepPin d1) true in
      (set_wakeUpTime (set_isSleeping d1 false) (millis w2), w2)
  else (set_wakeUpTime (set_isSleeping d1 false) (millis w), w).

Definition isReady (d : PMS5003) (w : W) : bool * PMS5003 :=
  if _isSleeping d then (false, d)
  else
    let d1 :=
      if negb (_isReady d)
      then
        if _uart d && (PREHEAT_TIME <? millis w - _wakeUpTime d)
        then set_isReady d true
        else d
      else d in
    (_isReady d1, d1).

Definition isSleeping (d : PMS5003) : bool := _isSleeping d.

(** [for (int i = 0; i < 2; i++) getData();] with [times = 2 - i]. *)
Fixpoint discard_reads (fuel : nat) (times : nat) (d : PMS5003) (w : W)
    : option (PMS5003 * W) :=
  match times with
  | O => Some (d, w)
  | S times' =>
      match getData fuel d w with
      | None => None
      | Some (_, d1, w1) => discard_reads fuel times' d1 w1
      end
  end.

Definition Sleep (fuel : nat) (d : PMS5003) (w : W)
    : option (bool * PMS5003 * W) :=
  if 0 <=? _sleepPin d then
    let w1 := digitalWrite w (_sleepPin d) false in
    let d1 := set_isSleeping (set_isReady d false) true in
    match discard_reads fuel 2 d1 w1 with
    | None => None
    | Some (d2, w2) => Some (_isSleeping d2, d2, w2)
    end
  else Some (_isSleeping d, d, w).

Definition WakeUp (d : PMS5003) (w : W) : bool * PMS5003 * W :=
  let '(d1, w1) :=
    if 0 <=? _sleepPin d then
      if _isSleeping d then
        let w1 := digitalWrite w (_sleepPin d) true in
        (set_wakeUpTime (set_isSleeping d false) (millis w1), w1)
      else (d, w)
    else (d, w) in
  (negb (_isSleeping d1), d1, w1).

End Driver.

(** ** A platform to run the driver on

    The transport holds the bytes received and not yet read ([sim_rx]); each
    call of [readBytes] hands out what is there, up to the length asked for,
    and takes [sim_read_ms] milliseconds. *)

Record Sim := mkSim {
  sim_clock : Z;
  sim_rx : list byte;
  sim_read_ms : Z;
  sim_pins : list (Z * bool)
}.

#[export] Instance SimPlatform : Platform Sim := {
  millis w := sim_clock w;
  readBytes w len :=
    (firstn len (sim_rx w),
     mkSim (sim_clock w + sim_read_ms w) (skipn len (sim_rx w))
           (sim_read_ms w) (sim_pins w));
  yield w := w;
  pinModeOutput w pin := w;
  digitalWrite w pin level :=
    mkSim (sim_clock w) (sim_rx w) (sim_read_ms w) ((pin, level) :: sim_pins w);
  readBytes_length w len := firstn_le_length len (sim_rx w)
}.

(** ** A platform with the clock of the boards

    [millis()] counts the milliseconds since the board started in a 32-bit
    counter, which starts again from 0 every 2^32 ms (49.7 days).  [Board]
    keeps the time since the start ([board_uptime]) and reads it modulo
    2^32; the transport is that of [Sim], and the pins are not recorded. *)

Record Board := mkBoard {
  board_uptime : Z;
  board_rx : list byte;
  board_read_ms : Z
}.

#[export] Instance BoardPlatform : Platform Board := {
  millis w := board_uptime w mod 4294967296;
  readBytes w len :=
    (firstn len (board_rx w),
     mkBoard (board_uptime w + board_read_ms w) (skipn len (board_rx w))
             (board_read_ms w));
  yield w := w;
  pinModeOutput w pin := w;
  digitalWrite w pin level := w;
  readBytes_length w len := firstn_le_length len (board_rx w)
}.

(** ** The words of the specification

    What follows is stated with the frame as the sensor's manual lays it
    out, not with the expressions of the source. *)

(** The sum of the bytes of a list, as an integer. *)
Definition byte_sum (bs : list byte) : Z := fold_right Z.add 0 (map b2z bs).

(** The big-endian 16-bit integer at offset [off] of a list of bytes. *)
Definition be16_at (bs : list byte) (off : nat) : Z :=
  256 * b2z (nth off bs x00) + b2z (nth (S off) bs x00).

(** The trailing checksum is the sum of the first 30 bytes modulo 2^16. *)
Definition checksum_ok (frame : list byte) : Prop :=
  byte_sum (firstn 30 frame) mod 2 ^ 16 = be16_at frame 30.

(** The declared length is 28. *)
Definition length_ok (frame : list byte) : Prop := be16_at frame 2 = 28.

(** The 28 bytes that the declared length counts: all that follows the
    length field. *)
Definition payload_bytes (frame : list byte) : list byte := skipn 4 frame.

(** The offsets, in the payload, of the twelve fields in their order. *)
Definition field_offsets : list nat := map (fun k => 2 * k)%nat (seq 0 12).

(** The offsets 0, 2, 4, ..., 26: every even offset of a 28-byte payload. *)
Definition even_offsets_to_26 : list nat :=
  map (fun k => 2 * k)%nat (seq 0 14).

(** The step of the resync phase as the specification words it, in the
    terms of [on_read]: byte 0 is kept once it is the first marker byte; a
    byte 1 that is not the second marker byte is discarded with it, but
    becomes the new candidate byte 0 when it is itself the first marker
    byte. *)
Definition on_read_as_specified (buff1 : list byte) (n m : nat)
    : nat * list byte :=
  if (0 <? m)%nat then
    if (n =? 0)%nat then
      if Byte.eqb (at_ buff1 0) x42
      then (1%nat, write_at buff1 1 [x00]) else (0%nat, buff1)
    else
      if Byte.eqb (at_ buff1 1) x4d then (n, buff1)
      else if Byte.eqb (at_ buff1 1) x42
      then (1%nat, write_at buff1 1 [x00]) else (0%nat, buff1)
  else (n, buff1).

Definition in_budget (c : Check) : Prop := elapsed c < READ_TIMEOUT.

(** Every test but the last found the budget not spent and the buffer
    not yet full. *)
Definition running (c : Check) : Prop :=
  in_budget c /\ (seen c < BUFF_SIZE)%nat.

(** The driver is awake, has a transport and is past its preheat: the two
    guards of [getData] (lines 119 and 122) let the call through. *)
Definition warmed_up {W : Type} `{Platform W} (d : PMS5003) (w : W) : Prop :=
  _uart d = true /\ _isSleeping d = false /\
  PREHEAT_TIME < millis w - _wakeUpTime d.

(** [attempts junk fuel startTime d w rcs d' w']: frame reads were made one
    after the other from [d] and [w], the first with [startTime], each of the
    following with the clock as read after the read before it; each but the
    last returned 2; [rcs] lists what they returned, [d'] and [w'] is where
    the last one ended. *)
Inductive attempts {W : Type} `{Platform W} (junk : list byte) (fuel : nat)
    : Z -> PMS5003 -> W -> list Z -> PMS5003 -> W -> Prop :=
| attempts_last startTime d w rc d' w' :
    getDataInternal junk fuel startTime d w = Some (rc, d', w') ->
    attempts junk fuel startTime d w [rc] d' w'
| attempts_retry startTime d w d1 w1 rcs d' w' :
    getDataInternal junk fuel startTime d w = Some (2, d1, w1) ->
    attempts junk fuel (millis w1) d1 w1 rcs d' w' ->
    attempts junk fuel startTime d w (2 :: rcs) d' w'.

(** What [getData] returns after the attempts [rcs], of which [tries] are
    allowed: there was at least one attempt and no more than allowed; the
    value is 1 when the last attempt returned 0; it is 0 when the last
    attempt returned 1, and when it returned 2 and was the last one allowed. *)
Definition verdict (tries : nat) (rcs : list Z) (v : Z) : Prop :=
  (1 <= length rcs <= tries)%nat /\
  ((last rcs 0 = 0 /\ v = 1) \/
   (last rcs 0 = 1 /\ v = 0) \/
   (last rcs 0 = 2 /\ length rcs = tries /\ v = 0)).

(** A latched readiness flag tells the truth: the driver is awake and the
    preheat is over. *)
Definition coherent {W : Type} `{Platform W} (d : PMS5003) (w : W) : Prop :=
  _isReady d = true ->
  _isSleeping d = false /\ _uart d = true /\
  PREHEAT_TIME < millis w - _wakeUpTime d.

(** Two arrays hold the same bytes in their first [k] cells. *)
Definition agree (k : nat) (b b' : list byte) : Prop :=
  length b = BUFF_SIZE /\ length b' = BUFF_SIZE /\
  forall i, (i < k)%nat -> at_ b i = at_ b' i.

(** The clock of the platform moves on until it reads [horizon], for the
    worlds in [Inv]: a read takes at least one millisecond, and as long as
    the clock reads less than [horizon] after the read, [yield] leaves a world
    of [Inv] again and takes from 0 to [slack] milliseconds.  Nothing is asked
    of the clock from [horizon] on, where a 32-bit counter may start again
    from 0. *)
Definition ticking {W : Type} `{Platform W} (horizon slack : Z)
    (Inv : W -> Prop) : Prop :=
  forall w len,
    Inv w ->
    millis w + 1 <= millis (snd (readBytes w len)) /\
    (millis (snd (readBytes w len)) < horizon ->
     Inv (yield (snd (readBytes w len))) /\
     millis (snd (readBytes w len)) <= millis (yield (snd (readBytes w len)))
     /\ millis (yield (snd (readBytes w len)))
        <= millis (snd (readBytes w len)) + slack).

(** The transport is silent, for the worlds in [Inv]: a read returns no
    byte, and leaves a world of [Inv] after [yield]. *)
Definition silent {W : Type} `{Platform W} (Inv : W -> Prop) : Prop :=
  forall w len,
    Inv w ->
    fst (readBytes w len) = [] /\ Inv (yield (snd (readBytes w len))).

(** On [Sim], the worlds whose reads take at least one millisecond. *)
Definition sim_ticks (w : Sim) : Prop := 1 <= sim_read_ms w.


(** On [Board], the worlds with nothing to read. *)
Definition board_silent (w : Board) : Prop := board_rx w = [].

(** ** The constructors

    The members [_hwSerial] and [_swSerial] serve the constructors and the
    destructor only; of the three pointers the object keeps [_uart]. *)

Definition set_uart (d : PMS5003) (u : bool) : PMS5003 :=
  mkPMS5003 (pm1p0std d) (pm2p5std d) (pm10std d) (pm1p0atm d) (pm2p5atm d)
    (pm10atm d) (nc0p3um d) (nc0p5um d) (nc1p0um d) (nc2p5um d) (nc5p0um d)
    (nc10um d) (_isReady d) (_isSleeping d) u (_wakeUpTime d) (_sleepPin d).

Section Constructors.

Context {W : Type} `{Platform W}.

(** [PMS5003(HardwareSerial &hwSerial, int8_t sleepPin, bool sleep)], on the
    object [raw] as the memory holds it before construction: [hwSerial] is a
    reference, so [_uart] is not NULL. *)
Definition PMS5003_HardwareSerial (sleepPin : Z) (sleep : bool)
    (raw : PMS5003) (w : W) : PMS5003 * W :=
  init sleepPin sleep (set_uart raw true) w.

(** [PMS5003(uint8_t rxPin, bool invert, int8_t sleepPin, bool sleep)].  The
    class [SoftwareSerial] is not part of the repository: [allocated] tells
    whether [new] returned an object, and [begin] is what constructing it and
    [begin(9600, SWSERIAL_8N1)] do to the world. *)
Definition PMS5003_SoftwareSerial (begin : W -> W) (allocated : bool)
    (sleepPin : Z) (sleep : bool) (raw : PMS5003) (w : W) : PMS5003 * W :=
  let w1 := if allocated then begin w else w in
  init sleepPin sleep (set_uart raw allocated) w1.

End Constructors.

(** ** More words for the properties *)

Section PayloadReads.

Context {W : Type} `{Platform W}.

(** The bytes handed out by the first [k] reads of the payload loop, entered
    with [n] bytes in the array and the world [w]. *)
Fixpoint chunks (k n : nat) (w : W) : list (list byte) :=
  match k with
  | O => []
  | S k' =>
      let (bs, w1) := readBytes w (BUFF_SIZE - n) in
      bs :: chunks k' (if (0 <? length bs)%nat then (n + length bs)%nat else n)
              (yield w1)
  end.

End PayloadReads.


(** The readiness flag is never set on a sleeping driver. *)
Definition sleeping_not_ready (d : PMS5003) : Prop :=
  _isSleeping d = true -> _isReady d = false.

(** ** Frames and states to run the driver on *)

(** A frame whose twelve fields are 1, 2, ..., 12. *)
Definition frame_1_12 : list byte :=
  [x42; x4d; x00; x1c;
   x00; x01; x00; x02; x00; x03; x00; x04; x00; x05; x00; x06;
   x00; x07; x00; x08; x00; x09; x00; x0a; x00; x0b; x00; x0c;
   x00; x00; x00; xf9].

(** The same frame with a wrong checksum. *)
Definition frame_bad_crc : list byte :=
  firstn 30 frame_1_12 ++ [x00; xf8].

(** A driver without sleep pin, woken at time 0, that holds 100 in each
    field. *)
Definition awake_driver : PMS5003 :=
  mkPMS5003 100 100 100 100 100 100 100 100 100 100 100 100
            false false true 0 (-1).

(** A driver with its sleep line on pin 5. *)
Definition pin_driver : PMS5003 :=
  mkPMS5003 100 100 100 100 100 100 100 100 100 100 100 100
            false false true 0 5.

(** The world at time [t] with the bytes [rx] waiting, each read taking
    1 ms. *)
Definition world_at (t : Z) (rx : list byte) : Sim := mkSim t rx 1 [].

Definition stack_junk : list byte := repeat xff 32.

(** * Properties *)

(** ** Bytes, words and the array *)

Lemma b2z_range (b : byte) : 0 <= b2z b < 256.
Proof.
  unfold b2z. pose proof (Byte.to_N_bounded b) as Hb.
  assert (Z.of_N (Byte.to_N b) <= 255)
    by (apply (N2Z.inj_le _ 255); exact Hb).
  lia.
Qed.

Lemma land_high_low (h l : Z) : 0 <= l < 256 -> Z.land (h * 2 ^ 8) l = 0.
Proof.
  intros Hl. apply Z.bits_inj'. intros i Hi.
  rewrite Z.land_spec, Z.bits_0.
  destruct (Z.ltb_spec i 8) as [Hlt|Hge].
  - rewrite Z.mul_pow2_bits_low by lia. reflexivity.
  - replace (Z.testbit l i) with false; [apply andb_false_r|].
    symmetry. destruct (Z.eq_dec l 0) as [->|Hne]; [apply Z.bits_0|].
    apply Z.bits_above_log2; [lia|].
    apply Z.log2_lt_pow2; [lia|].
    assert (2 ^ 8 <= 2 ^ i) by (apply Z.pow_le_mono_r; lia).
    change (2 ^ 8) with 256 in *. lia.
Qed.

Lemma lor_shiftl_8 (h l : Z) :
  0 <= h -> 0 <= l < 256 -> Z.lor (Z.shiftl h 8) l = 256 * h + l.
Proof.
  intros Hh Hl.
  rewrite Z.shiftl_mul_pow2 by lia.
  rewrite <- Z.lxor_lor by (apply land_high_low; exact Hl).
  rewrite <- Z.add_nocarry_lxor by (apply land_high_low; exact Hl).
  change (2 ^ 8) with 256. lia.
Qed.

Lemma u16_be_value (hi lo : byte) : u16_be hi lo = 256 * b2z hi + b2z lo.
Proof.
  unfold u16_be, to_u16.
  pose proof (b2z_range hi). pose proof (b2z_range lo).
  rewrite lor_shiftl_8 by lia.
  apply Z.mod_small. lia.
Qed.

Lemma u16_be_range (hi lo : byte) : 0 <= u16_be hi lo < 65536.
Proof.
  rewrite u16_be_value.
  pose proof (b2z_range hi). pose proof (b2z_range lo). lia.
Qed.

Lemma write_at_length (buff : list byte) (n : nat) (bs : list byte) :
  (n + length bs <= length buff)%nat ->
  length (write_at buff n bs) = length buff.
Proof.
  intros Hn. unfold write_at.
  rewrite !length_app, length_firstn, length_skipn. lia.
Qed.

Lemma write_at_nil (buff : list byte) (n : nat) : write_at buff n [] = buff.
Proof.
  unfold write_at. simpl. rewrite Nat.add_0_r. apply firstn_skipn.
Qed.

(** Cells below the place written keep their value. *)
Lemma at_write_at_below (buff : list byte) (n : nat) (bs : list byte) (i : nat) :
  (i < n <= length buff)%nat -> at_ (write_at buff n bs) i = at_ buff i.
Proof.
  intros Hi. unfold at_, write_at.
  rewrite app_nth1 by (rewrite length_firstn; lia).
  rewrite <- (firstn_skipn n buff) at 2.
  rewrite app_nth1 by (rewrite length_firstn; lia). reflexivity.
Qed.

(** Cells written hold the bytes received. *)
Lemma at_write_at_in (buff : list byte) (n : nat) (bs : list byte) (i : nat) :
  (n <= length buff)%nat -> (i < length bs)%nat ->
  at_ (write_at buff n bs) (n + i) = nth i bs x00.
Proof.
  intros Hn Hi. unfold at_, write_at.
  rewrite app_nth2 by (rewrite length_firstn; lia).
  rewrite length_firstn.
  replace (n + i - Nat.min n (length buff))%nat with i by lia.
  apply app_nth1. exact Hi.
Qed.

(** Cells above the bytes written keep their value. *)
Lemma at_write_at_above (buff : list byte) (n : nat) (bs : list byte) (i : nat) :
  (n <= length buff)%nat -> (n + length bs <= i)%nat ->
  at_ (write_at buff n bs) i = at_ buff i.
Proof.
  intros Hn Hi. unfold at_, write_at.
  rewrite app_nth2 by (rewrite length_firstn; lia).
  rewrite length_firstn.
  rewrite app_nth2 by lia.
  rewrite nth_skipn. f_equal. lia.
Qed.

(** ** The checksum *)

Lemma byte_sum_cons (x : byte) (bs : list byte) :
  byte_sum (x :: bs) = b2z x + byte_sum bs.
Proof. reflexivity. Qed.

Lemma skipn_at_cons (buff : list byte) (s : nat) :
  (s < length buff)%nat -> skipn s buff = at_ buff s :: skipn (S s) buff.
Proof.
  revert s. induction buff as [|x buff IH]; intros s Hs; simpl in Hs; [lia|].
  destruct s as [|s]; [reflexivity|].
  simpl. rewrite IH by lia. reflexivity.
Qed.

Lemma crc_loop_sum (buff : list byte) (k s : nat) (a : Z) :
  0 <= a < 65536 ->
  fold_left (fun acc i => to_u16 (acc + b2z (at_ buff i))) (seq s k) a
  = (a + byte_sum (firstn k (skipn s buff))) mod 65536.
Proof.
  revert s a. induction k as [|k IH]; intros s a Ha.
  - simpl. rewrite Z.add_0_r. symmetry. apply Z.mod_small. exact Ha.
  - simpl seq. simpl fold_left.
    rewrite IH by (unfold to_u16; apply Z.mod_pos_bound; lia).
    unfold to_u16. rewrite Zplus_mod_idemp_l.
    destruct (Nat.lt_ge_cases s (length buff)) as [Hs|Hs].
    + rewrite (skipn_at_cons buff s Hs), firstn_cons, byte_sum_cons.
      f_equal. lia.
    + rewrite (skipn_all2 buff) by lia.
      rewrite (skipn_all2 buff (n := s)) by lia.
      unfold at_. rewrite nth_overflow by lia.
      rewrite !firstn_nil. unfold byte_sum. simpl. f_equal.
      change (b2z x00) with 0. lia.
Qed.

(** The running 16-bit sum of the source is the sum of the first 30 bytes
    modulo 2^16. *)
Lemma crcSum_value (buff : list byte) :
  crcSum buff = byte_sum (firstn 30 buff) mod 2 ^ 16.
Proof.
  unfold crcSum. rewrite crc_loop_sum by lia. reflexivity.
Qed.

(** ** The read loops *)

Section Loops.

Context {W : Type} `{Platform W}.

Lemma read_length (w : W) (len : nat) (bs : list byte) (w1 : W) :
  readBytes w len = (bs, w1) -> (length bs <= len)%nat.
Proof.
  intros E. pose proof (readBytes_length w len) as Hl.
  rewrite E in Hl. exact Hl.
Qed.

(** The step of the source is the step of the specification in every case
    but one: a 0x42 read as byte 1.  The source drops it and goes back to
    [n = 0]; the specification keeps it as the new byte 0. *)
Lemma on_read_vs_specification (buff1 : list byte) (n m : nat) :
  (n <= 1)%nat ->
  (on_read buff1 n m = on_read_as_specified buff1 n m
   <-> ~ ((0 < m)%nat /\ n = 1%nat /\ at_ buff1 1 = x42)) /\
  ((0 < m)%nat -> n = 1%nat -> at_ buff1 1 = x42 ->
   on_read buff1 n m = (0%nat, buff1) /\
   on_read_as_specified buff1 n m = (1%nat, write_at buff1 1 [x00])).
Proof.
  intros Hn. unfold on_read, on_read_as_specified.
  destruct (Nat.ltb_spec 0 m) as [Hm|Hm].
  - destruct n as [|[|n]]; [| |lia]; cbn [Nat.eqb andb].
    + split; [|intros _ Hn1; discriminate].
      split; [intros _ (_ & Hn1 & _); discriminate|intros _].
      destruct (Byte.eqb (at_ buff1 0) x42); reflexivity.
    + destruct (Byte.eqb (at_ buff1 1) x4d) eqn:E4d; cbn [negb].
      * apply Byte.byte_dec_bl in E4d. split.
        -- split; [|reflexivity].
           intros _ (_ & _ & E42). rewrite E42 in E4d. discriminate.
        -- intros _ _ E42. rewrite E42 in E4d. discriminate.
      * destruct (Byte.eqb (at_ buff1 1) x42) eqn:E42.
        -- apply Byte.byte_dec_bl in E42. split.
           ++ split; [intros Heq; discriminate|].
              intros Hno. exfalso. apply Hno. auto.
           ++ auto.
        -- split.
           ++ split; [|reflexivity].
              intros _ (_ & _ & E). rewrite E in E42. discriminate.
           ++ intros _ _ E. rewrite E in E42. discriminate.
  - split; [|lia]. split; [intros _ (Hm' & _); lia|reflexivity].
Qed.

Lemma on_read_spec (buff1 : list byte) (n m n2 : nat) (buff2 : list byte) :
  length buff1 = BUFF_SIZE -> (n <= 1)%nat ->
  on_read buff1 n m = (n2, buff2) ->
  length buff2 = BUFF_SIZE /\ (n2 <= 1)%nat.
Proof.
  intros Hlen Hn E. unfold on_read in E.
  destruct (0 <? m)%nat;
    [destruct ((n =? 0)%nat && Byte.eqb (at_ buff1 0) x42);
     [|destruct ((n =? 1)%nat && negb (Byte.eqb (at_ buff1 1) x4d))]|];
    inversion E; subst; split; auto; try lia.
  rewrite write_at_length; [exact Hlen|].
  rewrite Hlen. unfold BUFF_SIZE. simpl. lia.
Qed.

Lemma resync_spec (fuel : nat) (startTime : Z) :
  forall buff n w r b cs w',
    length buff = BUFF_SIZE -> (n <= 1)%nat ->
    resync fuel startTime buff n w = Some (r, b, cs, w') ->
    length b = BUFF_SIZE /\
    exists cs0 c,
      cs = cs0 ++ [c] /\ Forall running cs0 /\ (seen c <= 1)%nat /\
      if r then in_budget c /\ at_ b 0 = x42 /\ at_ b 1 = x4d
      else READ_TIMEOUT <= elapsed c /\ elapsed c = millis w' - startTime.
Proof.
  induction fuel as [|fuel IH]; intros buff n w r b cs w' Hlen Hn E;
    [discriminate|].
  simpl in E.
  destruct (readBytes w 1) as [bs w1] eqn:Er.
  pose proof (read_length _ _ _ _ Er) as Hbs.
  assert (Hlen1 : length (write_at buff n bs) = BUFF_SIZE).
  { rewrite write_at_length; [exact Hlen|]. rewrite Hlen. unfold BUFF_SIZE. lia. }
  destruct (on_read (write_at buff n bs) n (length bs)) as [n2 buff2] eqn:Eupd.
  destruct (on_read_spec _ _ _ _ _ Hlen1 Hn Eupd) as [Hlen2 Hn2].
  destruct (READ_TIMEOUT <=? millis w1 - startTime) eqn:Et.
  - inversion E; subst. split; [exact Hlen2|].
    exists [], (mkCheck n2 (millis w' - startTime)). simpl.
    repeat split; auto. apply Z.leb_le. exact Et.
  - apply Z.leb_gt in Et.
    destruct (negb (Byte.eqb (at_ buff2 0) x42)
              || negb (Byte.eqb (at_ buff2 1) x4d)) eqn:Ec.
    + destruct (resync fuel startTime buff2 n2 (yield w1))
        as [[[[r' b'] cs'] w'']|] eqn:Erec; [|discriminate].
      inversion E; subst.
      destruct (IH _ _ _ _ _ _ _ Hlen2 Hn2 Erec) as (Hb & cs0 & c & -> & Hf & Hs & Hr).
      split; [exact Hb|].
      exists (mkCheck n2 (millis w1 - startTime) :: cs0), c.
      repeat split; auto.
      constructor; [|exact Hf].
      split; [exact Et|]. simpl. unfold BUFF_SIZE. lia.
    + inversion E; subst. split; [exact Hlen2|].
      exists [], (mkCheck n2 (millis w1 - startTime)). simpl.
      apply orb_false_elim in Ec. destruct Ec as [E0 E1].
      apply negb_false_iff in E0, E1.
      apply Byte.byte_dec_bl in E0, E1.
      repeat split; auto.
Qed.

Lemma payload_spec (fuel : nat) (startTime : Z) :
  forall buff n w r b cs w',
    length buff = BUFF_SIZE -> (n < BUFF_SIZE)%nat ->
    payload fuel startTime buff n w = Some (r, b, cs, w') ->
    length b = BUFF_SIZE /\
    (forall i, (i < n)%nat -> at_ b i = at_ buff i) /\
    exists cs0 c,
      cs = cs0 ++ [c] /\ Forall running cs0 /\
      if r then in_budget c /\ seen c = BUFF_SIZE
      else READ_TIMEOUT <= elapsed c /\ elapsed c = millis w' - startTime
           /\ (seen c <= BUFF_SIZE)%nat.
Proof.
  induction fuel as [|fuel IH]; intros buff n w r b cs w' Hlen Hn E;
    [discriminate|].
  cbn [payload] in E.
  destruct (readBytes w (BUFF_SIZE - n)) as [bs w1] eqn:Er.
  pose proof (read_length _ _ _ _ Er) as Hbs.
  assert (Hlen1 : length (write_at buff n bs) = BUFF_SIZE).
  { rewrite write_at_length; [exact Hlen|]. rewrite Hlen. lia. }
  set (n1 := if (0 <? length bs)%nat then (n + length bs)%nat else n) in *.
  assert (Hn1 : (n1 <= BUFF_SIZE)%nat).
  { unfold n1. destruct (0 <? length bs)%nat; lia. }
  assert (Hkeep : forall i, (i < n)%nat ->
                    at_ (write_at buff n bs) i = at_ buff i).
  { intros i Hi. apply at_write_at_below. lia. }
  assert (Hnn1 : (n <= n1)%nat).
  { unfold n1. destruct (0 <? length bs)%nat; lia. }
  destruct (READ_TIMEOUT <=? millis w1 - startTime) eqn:Et.
  - inversion E; subst. split; [exact Hlen1|]. split; [exact Hkeep|].
    exists [], (mkCheck n1 (millis w' - startTime)). simpl.
    repeat split; auto. apply Z.leb_le. exact Et.
  - apply Z.leb_gt in Et.
    destruct (n1 <? BUFF_SIZE)%nat eqn:Ec.
    + apply Nat.ltb_lt in Ec.
      destruct (payload fuel startTime (write_at buff n bs) n1 (yield w1))
        as [[[[r' b'] cs'] w'']|] eqn:Erec; [|discriminate].
      inversion E; subst.
      destruct (IH _ _ _ _ _ _ _ Hlen1 Ec Erec)
        as (Hb & Hk & cs0 & c & -> & Hf & Hr).
      split; [exact Hb|]. split.
      { intros i Hi. rewrite Hk by lia. apply Hkeep. exact Hi. }
      exists (mkCheck n1 (millis w1 - startTime) :: cs0), c.
      repeat split; auto.
      constructor; [|exact Hf]. split; [exact Et|exact Ec].
    + apply Nat.ltb_ge in Ec.
      inversion E; subst. split; [exact Hlen1|]. split; [exact Hkeep|].
      exists [], (mkCheck n1 (millis w1 - startTime)). simpl.
      repeat split; auto. lia.
Qed.

Lemma fresh_buff_length (junk : list byte) :
  length (fresh_buff junk) = BUFF_SIZE.
Proof.
  unfold fresh_buff.
  rewrite length_firstn, length_app, repeat_length. lia.
Qed.

(** What one pass through lines 143-171 leaves behind: the tests of the
    timeout before the last one all found the budget unspent and the buffer
    short of 32 bytes; a full buffer comes with a last test inside the
    budget, the return of 1 with a last test outside it. *)
Lemma read_frame_spec (junk : list byte) (fuel : nat) (startTime : Z) (w : W) :
  forall o cs w',
    read_frame junk fuel startTime w = Some (o, cs, w') ->
    exists cs0 c,
      cs = cs0 ++ [c] /\ Forall running cs0 /\
      match o with
      | Some buff =>
          length buff = BUFF_SIZE /\ in_budget c /\ seen c = BUFF_SIZE /\
          at_ buff 0 = x42 /\ at_ buff 1 = x4d
      | None =>
          READ_TIMEOUT <= elapsed c /\ elapsed c = millis w' - startTime /\
          (seen c <= BUFF_SIZE)%nat
      end.
Proof.
  intros o cs w' E. unfold read_frame in E.
  assert (Hl0 : length (write_at (fresh_buff junk) 0 [x00; x00]) = BUFF_SIZE).
  { rewrite write_at_length; rewrite fresh_buff_length; [reflexivity|].
    unfold BUFF_SIZE. simpl. lia. }
  destruct (resync fuel startTime _ 0 w) as [[[[r b] rcs] w1]|] eqn:Er;
    [|discriminate].
  destruct (resync_spec _ _ _ _ _ _ _ _ _ Hl0 (Nat.le_0_l 1) Er)
    as (Hb & rcs0 & rc & -> & Hrf & Hrs & Hr).
  destruct r.
  - destruct Hr as (Hrb & H0 & H1).
    assert (H2 : (2 < BUFF_SIZE)%nat) by (unfold BUFF_SIZE; lia).
    destruct (payload fuel startTime b 2 w1) as [[[[r' b'] pcs] w2]|] eqn:Ep;
      [|discriminate].
    destruct (payload_spec _ _ _ _ _ _ _ _ _ Hb H2 Ep)
      as (Hb' & Hk & pcs0 & pc & -> & Hpf & Hp).
    assert (Hpre : Forall running ((rcs0 ++ [rc]) ++ pcs0)).
    { rewrite !Forall_app. repeat split; auto.
      constructor; [|constructor].
      split; [exact Hrb|]. unfold BUFF_SIZE. lia. }
    destruct r'; inversion E; subst;
      exists ((rcs0 ++ [rc]) ++ pcs0), pc;
      (split; [rewrite <- !app_assoc; reflexivity|]);
      (split; [exact Hpre|]).
    + destruct Hp as (Hpb & Hps).
      repeat split; auto.
      * rewrite Hk by lia. exact H0.
      * rewrite Hk by lia. exact H1.
    + exact Hp.
  - inversion E; subst. exists rcs0, rc.
    destruct Hr as (Ht & He).
    repeat split; auto. unfold BUFF_SIZE. lia.
Qed.

(** *** What the array held on entry does not matter *)

Lemma agree_write_at (k n : nat) (bs b b' : list byte) :
  agree k b b' -> (n + length bs <= BUFF_SIZE)%nat ->
  agree k (write_at b n bs) (write_at b' n bs).
Proof.
  intros (Hl & Hl' & Ha) Hn. unfold agree.
  rewrite !write_at_length by lia. repeat split; auto.
  intros i Hi.
  destruct (Nat.lt_ge_cases i n) as [Hlt|Hge].
  - rewrite !at_write_at_below by lia. apply Ha. exact Hi.
  - destruct (Nat.lt_ge_cases i (n + length bs)) as [Hin|Hout].
    + replace i with (n + (i - n))%nat by lia.
      rewrite !at_write_at_in by lia. reflexivity.
    + rewrite !at_write_at_above by lia. apply Ha. exact Hi.
Qed.

Lemma agree_write_at_grow (n : nat) (bs b b' : list byte) :
  agree n b b' -> (n + length bs <= BUFF_SIZE)%nat ->
  agree (n + length bs) (write_at b n bs) (write_at b' n bs).
Proof.
  intros (Hl & Hl' & Ha) Hn. unfold agree.
  rewrite !write_at_length by lia. repeat split; auto.
  intros i Hi.
  destruct (Nat.lt_ge_cases i n) as [Hlt|Hge].
  - rewrite !at_write_at_below by lia. apply Ha. exact Hlt.
  - replace i with (n + (i - n))%nat by lia.
    rewrite !at_write_at_in by lia. reflexivity.
Qed.

Lemma agree_all_eq (b b' : list byte) : agree BUFF_SIZE b b' -> b = b'.
Proof.
  intros (Hl & Hl' & Ha).
  apply (nth_ext b b' x00 x00); [congruence|].
  intros i Hi. apply Ha. lia.
Qed.

Lemma on_read_agree (b b' : list byte) (n m : nat) :
  agree 2 b b' ->
  fst (on_read b n m) = fst (on_read b' n m) /\
  agree 2 (snd (on_read b n m)) (snd (on_read b' n m)).
Proof.
  intros Ha. unfold on_read.
  pose proof Ha as (_ & _ & Hp).
  rewrite <- (Hp 0%nat) by lia. rewrite <- (Hp 1%nat) by lia.
  destruct (0 <? m)%nat;
    [destruct ((n =? 0)%nat && Byte.eqb (at_ b 0) x42);
     [|destruct ((n =? 1)%nat && negb (Byte.eqb (at_ b 1) x4d))]|];
    cbn [fst snd]; split; auto.
  apply agree_write_at; [exact Ha|]. unfold BUFF_SIZE. simpl. lia.
Qed.

Lemma resync_agree (startTime : Z) (fuel : nat) :
  forall b b' n w,
    agree 2 b b' -> (n <= 1)%nat ->
    match resync fuel startTime b n w, resync fuel startTime b' n w with
    | Some (r, o, cs, w1), Some (r', o', cs', w1') =>
        r = r' /\ cs = cs' /\ w1 = w1' /\ agree 2 o o'
    | None, None => True
    | _, _ => False
    end.
Proof.
  induction fuel as [|fuel IH]; intros b b' n w Ha Hn; [exact I|].
  cbn [resync].
  destruct (readBytes w 1) as [bs w1] eqn:Er.
  pose proof (read_length _ _ _ _ Er) as Hbs.
  assert (Ha1 : agree 2 (write_at b n bs) (write_at b' n bs)).
  { apply agree_write_at; [exact Ha|]. unfold BUFF_SIZE. lia. }
  destruct (on_read_agree _ _ n (length bs) Ha1) as [Hn2 Ha2].
  destruct (on_read (write_at b n bs) n (length bs)) as [n2 o2] eqn:Eo.
  destruct (on_read_spec _ _ _ _ _ (proj1 Ha1) Hn Eo) as [_ Hn2le].
  destruct (on_read (write_at b' n bs) n (length bs)) as [n2' o2'].
  cbn [fst snd] in Hn2, Ha2. subst n2'.
  pose proof Ha2 as (_ & _ & Hp2).
  rewrite <- (Hp2 0%nat) by lia. rewrite <- (Hp2 1%nat) by lia.
  destruct (READ_TIMEOUT <=? millis w1 - startTime);
    [split; [|split; [|split]]; auto|].
  destruct (negb (Byte.eqb (at_ o2 0) x42) || negb (Byte.eqb (at_ o2 1) x4d));
    [|split; [|split; [|split]]; auto].
  specialize (IH o2 o2' n2 (yield w1) Ha2 Hn2le).
  destruct (resync fuel startTime o2 n2 (yield w1)) as [[[[r o] cs] w2]|];
    destruct (resync fuel startTime o2' n2 (yield w1)) as [[[[r' o'] cs'] w2']|];
    try contradiction; [|exact I].
  destruct IH as (-> & -> & -> & Hag). split; [|split; [|split]]; auto.
Qed.

Lemma payload_agree (startTime : Z) (fuel : nat) :
  forall b b' n w,
    agree n b b' -> (n < BUFF_SIZE)%nat ->
    match payload fuel startTime b n w, payload fuel startTime b' n w with
    | Some (r, o, cs, w1), Some (r', o', cs', w1') =>
        r = r' /\ cs = cs' /\ w1 = w1' /\ (r = true -> o = o')
    | None, None => True
    | _, _ => False
    end.
Proof.
  induction fuel as [|fuel IH]; intros b b' n w Ha Hn; [exact I|].
  cbn [payload].
  destruct (readBytes w (BUFF_SIZE - n)) as [bs w1] eqn:Er.
  pose proof (read_length _ _ _ _ Er) as Hbs.
  assert (Ha1 : agree (if (0 <? length bs)%nat then (n + length bs)%nat else n)
                  (write_at b n bs) (write_at b' n bs)).
  { destruct (Nat.ltb_spec 0 (length bs)).
    - apply agree_write_at_grow; [exact Ha|lia].
    - apply agree_write_at; [exact Ha|lia]. }
  set (n1 := if (0 <? length bs)%nat then (n + length bs)%nat else n) in *.
  destruct (READ_TIMEOUT <=? millis w1 - startTime);
    [repeat split; auto; discriminate|].
  destruct (Nat.ltb_spec n1 BUFF_SIZE) as [Hlt|Hge].
  - specialize (IH _ _ n1 (yield w1) Ha1 Hlt).
    destruct (payload fuel startTime (write_at b n bs) n1 (yield w1))
      as [[[[r o] cs] w2]|];
      destruct (payload fuel startTime (write_at b' n bs) n1 (yield w1))
        as [[[[r' o'] cs'] w2']|];
      try contradiction; [|exact I].
    destruct IH as (-> & -> & -> & Ho). repeat split; auto.
  - repeat split; auto. intros _. apply agree_all_eq.
    destruct Ha1 as (Hl & Hl' & Hp). repeat split; auto.
    intros i Hi. apply Hp. lia.
Qed.

(** The result of lines 143-171 is the same whatever the array held on
    entry. *)
Lemma read_frame_junk (junk junk' : list byte) (fuel : nat) (startTime : Z)
    (w : W) :
  read_frame junk fuel startTime w = read_frame junk' fuel startTime w.
Proof.
  unfold read_frame.
  assert (Ha : agree 2 (write_at (fresh_buff junk) 0 [x00; x00])
                       (write_at (fresh_buff junk') 0 [x00; x00])).
  { unfold agree. rewrite !write_at_length
      by (rewrite fresh_buff_length; unfold BUFF_SIZE; simpl; lia).
    rewrite !fresh_buff_length. repeat split; auto.
    intros i Hi. change i with (0 + i)%nat.
    rewrite !at_write_at_in; auto; rewrite ?fresh_buff_length;
      unfold BUFF_SIZE; lia. }
  pose proof (resync_agree startTime fuel _ _ 0%nat w Ha (Nat.le_0_l 1)) as Hr.
  destruct (resync fuel startTime (write_at (fresh_buff junk) 0 [x00; x00]) 0 w)
    as [[[[r o] cs] w1]|];
    destruct (resync fuel startTime (write_at (fresh_buff junk') 0 [x00; x00])
                0 w) as [[[[r' o'] cs'] w1']|];
    try contradiction; [|reflexivity].
  destruct Hr as (-> & -> & -> & Hag).
  destruct r'; [|reflexivity].
  assert (H2 : (2 < BUFF_SIZE)%nat) by (unfold BUFF_SIZE; lia).
  pose proof (payload_agree startTime fuel _ _ 2%nat w1' Hag H2) as Hp.
  destruct (payload fuel startTime o 2 w1') as [[[[r b] pcs] w2]|];
    destruct (payload fuel startTime o' 2 w1') as [[[[r' b'] pcs'] w2']|];
    try contradiction; [|reflexivity].
  destruct Hp as (-> & -> & -> & Hb).
  destruct r'; [rewrite (Hb eq_refl)|]; reflexivity.
Qed.

(** *** More fuel changes nothing *)

Lemma resync_fuel_mono (startTime : Z) (fuel : nat) :
  forall fuel' buff n w r,
    (fuel <= fuel')%nat ->
    resync fuel startTime buff n w = Some r ->
    resync fuel' startTime buff n w = Some r.
Proof.
  induction fuel as [|fuel IH]; intros fuel' buff n w r Hle E; [discriminate|].
  destruct fuel' as [|fuel']; [lia|].
  cbn [resync] in *.
  destruct (readBytes w 1) as [bs w1].
  destruct (on_read (write_at buff n bs) n (length bs)) as [n2 buff2].
  destruct (READ_TIMEOUT <=? millis w1 - startTime); [exact E|].
  destruct (negb (Byte.eqb (at_ buff2 0) x42)
            || negb (Byte.eqb (at_ buff2 1) x4d)); [|exact E].
  destruct (resync fuel startTime buff2 n2 (yield w1)) as [r'|] eqn:Er;
    [|discriminate].
  rewrite (IH fuel' _ _ _ _ ltac:(lia) Er). exact E.
Qed.

Lemma payload_fuel_mono (startTime : Z) (fuel : nat) :
  forall fuel' buff n w r,
    (fuel <= fuel')%nat ->
    payload fuel startTime buff n w = Some r ->
    payload fuel' startTime buff n w = Some r.
Proof.
  induction fuel as [|fuel IH]; intros fuel' buff n w r Hle E; [discriminate|].
  destruct fuel' as [|fuel']; [lia|].
  cbn [payload] in *.
  destruct (readBytes w (BUFF_SIZE - n)) as [bs w1].
  destruct (READ_TIMEOUT <=? millis w1 - startTime); [exact E|].
  destruct ((if (0 <? length bs)%nat then (n + length bs)%nat else n)
            <? BUFF_SIZE)%nat; [|exact E].
  destruct (payload fuel startTime (write_at buff n bs)
              (if (0 <? length bs)%nat then (n + length bs)%nat else n)
              (yield w1)) as [r'|] eqn:Er; [|discriminate].
  rewrite (IH fuel' _ _ _ _ ltac:(lia) Er). exact E.
Qed.

Lemma read_frame_fuel_mono (junk : list byte) (startTime : Z)
    (fuel fuel' : nat) (w : W) r :
  (fuel <= fuel')%nat ->
  read_frame junk fuel startTime w = Some r ->
  read_frame junk fuel' startTime w = Some r.
Proof.
  intros Hle E. unfold read_frame in *.
  destruct (resync fuel startTime _ 0 w) as [[[[ok b] cs] w1]|] eqn:Er;
    [|discriminate].
  rewrite (resync_fuel_mono _ _ _ _ _ _ _ Hle Er).
  destruct ok; [|exact E].
  destruct (payload fuel startTime b 2 w1) as [p|] eqn:Ep; [|discriminate].
  rewrite (payload_fuel_mono _ _ _ _ _ _ _ Hle Ep). exact E.
Qed.

(** *** The loops end when the clock moves on *)

Section Ticking.

Variables (horizon slack : Z) (Inv : W -> Prop).
Hypothesis Htick : ticking horizon slack Inv.

Lemma resync_terminates (startTime : Z) (fuel : nat) :
  forall buff n w,
    Inv w -> (0 < fuel)%nat ->
    startTime + READ_TIMEOUT <= horizon ->
    startTime + READ_TIMEOUT - millis w <= Z.of_nat fuel ->
    exists r b cs w',
      resync fuel startTime buff n w = Some (r, b, cs, w') /\
      millis w <= millis w' /\
      (r = true -> Inv w' /\ millis w' < startTime + READ_TIMEOUT + slack).
Proof.
  induction fuel as [|fuel IH]; intros buff n w Hi Hf Hh Hb; [lia|].
  cbn [resync].
  destruct (Htick w 1%nat Hi) as [Ht1 Hy].
  destruct (readBytes w 1) as [bs w1]. cbn [snd] in Ht1, Hy.
  destruct (on_read (write_at buff n bs) n (length bs)) as [n2 buff2].
  destruct (Z.leb_spec READ_TIMEOUT (millis w1 - startTime)) as [Hto|Hto].
  - do 4 eexists. split; [reflexivity|]. split; [lia|discriminate].
  - destruct (Hy ltac:(lia)) as (Hi2 & Ht2 & Ht3).
    destruct (negb (Byte.eqb (at_ buff2 0) x42)
              || negb (Byte.eqb (at_ buff2 1) x4d)).
    + destruct (IH buff2 n2 (yield w1) Hi2 ltac:(lia) Hh ltac:(lia))
        as (r & b & cs & w' & E & Ht' & Hr).
      rewrite E. do 4 eexists. split; [reflexivity|]. split; [lia|exact Hr].
    + do 4 eexists. split; [reflexivity|]. split; [lia|].
      intros _. split; [exact Hi2|lia].
Qed.

Lemma payload_terminates (startTime : Z) (fuel : nat) :
  forall buff n w,
    Inv w -> (0 < fuel)%nat ->
    startTime + READ_TIMEOUT <= horizon ->
    startTime + READ_TIMEOUT - millis w <= Z.of_nat fuel ->
    exists r b cs w',
      payload fuel startTime buff n w = Some (r, b, cs, w') /\
      millis w <= millis w' /\
      (r = true -> Inv w' /\ millis w' < startTime + READ_TIMEOUT + slack).
Proof.
  induction fuel as [|fuel IH]; intros buff n w Hi Hf Hh Hb; [lia|].
  cbn [payload].
  destruct (Htick w (BUFF_SIZE - n)%nat Hi) as [Ht1 Hy].
  destruct (readBytes w (BUFF_SIZE - n)) as [bs w1]. cbn [snd] in Ht1, Hy.
  destruct (Z.leb_spec READ_TIMEOUT (millis w1 - startTime)) as [Hto|Hto].
  - do 4 eexists. split; [reflexivity|]. split; [lia|discriminate].
  - destruct (Hy ltac:(lia)) as (Hi2 & Ht2 & Ht3).
    destruct ((if (0 <? length bs)%nat then (n + length bs)%nat else n)
              <? BUFF_SIZE)%nat.
    + destruct (IH (write_at buff n bs)
                  (if (0 <? length bs)%nat then (n + length bs)%nat else n)
                  (yield w1) Hi2 ltac:(lia) Hh ltac:(lia))
        as (r & b & cs & w' & E & Ht' & Hr).
      rewrite E. do 4 eexists. split; [reflexivity|]. split; [lia|exact Hr].
    + do 4 eexists. split; [reflexivity|]. split; [lia|].
      intros _. split; [exact Hi2|lia].
Qed.

Lemma read_frame_terminates (junk : list byte) (startTime : Z) (fuel : nat)
    (w : W) :
  Inv w -> (0 < fuel)%nat ->
  startTime + READ_TIMEOUT <= horizon ->
  startTime + READ_TIMEOUT - millis w <= Z.of_nat fuel ->
  exists o cs w',
    read_frame junk fuel startTime w = Some (o, cs, w') /\
    millis w <= millis w' /\
    (o <> None -> Inv w' /\ millis w' < startTime + READ_TIMEOUT + slack).
Proof.
  intros Hi Hf Hh Hb. unfold read_frame.
  destruct (resync_terminates startTime fuel
              (write_at (fresh_buff junk) 0 [x00; x00]) 0 w Hi Hf Hh Hb)
    as (r & b & cs & w1 & E & Ht1 & Hr1).
  rewrite E. destruct r.
  - destruct (Hr1 eq_refl) as [Hi1 _].
    destruct (payload_terminates startTime fuel b 2 w1 Hi1 Hf Hh ltac:(lia))
      as (r' & b' & cs' & w2 & E' & Ht2 & Hr2).
    rewrite E'. destruct r'; do 3 eexists;
      (split; [reflexivity|]); (split; [lia|]).
    + intros _. apply Hr2. reflexivity.
    + intros Hn. contradiction.
  - do 3 eexists. split; [reflexivity|]. split; [lia|].
    intros Hn. contradiction.
Qed.

End Ticking.

End Loops.

(** ** Validation and decoding *)

Lemma crc_value (buff : list byte) : crc buff = be16_at buff 30.
Proof. unfold crc, be16_at, at_. apply u16_be_value. Qed.

Lemma frameLength_value (buff : list byte) : frameLength buff = be16_at buff 2.
Proof. unfold frameLength, be16_at, at_. apply u16_be_value. Qed.

(** The test of the source lets a frame through exactly when the checksum
    and the declared length are right. *)
Lemma bad_data_false_iff (buff : list byte) :
  bad_data buff = false <-> checksum_ok buff /\ length_ok buff.
Proof.
  unfold bad_data, checksum_ok, length_ok.
  rewrite crcSum_value, crc_value, frameLength_value.
  rewrite orb_false_iff, !negb_false_iff, !Z.eqb_eq. reflexivity.
Qed.

Lemma bad_data_true_iff (buff : list byte) :
  bad_data buff = true <-> ~ (checksum_ok buff /\ length_ok buff).
Proof.
  rewrite <- bad_data_false_iff. destruct (bad_data buff); split; intros;
    congruence.
Qed.

Lemma nth_skipn_4 (buff : list byte) (i : nat) :
  nth i (skipn 4 buff) x00 = at_ buff (4 + i).
Proof. unfold at_. rewrite nth_skipn. reflexivity. Qed.

(** The twelve assignments read the twelve words at the offsets 0, 2, ...,
    22 of the payload, in the order of the fields. *)
Lemma store_fields_measurement (buff : list byte) (d : PMS5003) :
  measurement (store_fields buff d)
  = map (be16_at (payload_bytes buff)) field_offsets.
Proof.
  unfold measurement, store_fields, field_offsets, payload_bytes, be16_at.
  cbn -[skipn nth Z.mul Z.add u16_be b2z at_].
  rewrite !nth_skipn_4, !u16_be_value. reflexivity.
Qed.

Lemma store_fields_private (buff : list byte) (d : PMS5003) :
  _isReady (store_fields buff d) = _isReady d /\
  _isSleeping (store_fields buff d) = _isSleeping d /\
  _uart (store_fields buff d) = _uart d /\
  _wakeUpTime (store_fields buff d) = _wakeUpTime d /\
  _sleepPin (store_fields buff d) = _sleepPin d.
Proof. repeat split. Qed.

Section Attempt.

Context {W : Type} `{Platform W}.
Variable junk : list byte.

(** The three ways out of [getDataInternal]. *)
Lemma getDataInternal_cases (fuel : nat) (startTime : Z) (d : PMS5003) (w : W)
    (rc : Z) (d' : PMS5003) (w' : W) :
  getDataInternal junk fuel startTime d w = Some (rc, d', w') ->
  exists o cs,
    read_frame junk fuel startTime w = Some (o, cs, w') /\
    match o with
    | None => rc = 1 /\ d' = d
    | Some buff =>
        (bad_data buff = true /\ rc = 2 /\ d' = d) \/
        (bad_data buff = false /\ rc = 0 /\ d' = store_fields buff d)
    end.
Proof.
  unfold getDataInternal. intros E.
  destruct (read_frame junk fuel startTime w) as [[[o cs] w1]|]; [|discriminate].
  exists o, cs. destruct o as [buff|].
  - destruct (bad_data buff) eqn:Eb; inversion E; subst; split; auto.
  - inversion E; subst. split; auto.
Qed.

Lemma getDataInternal_rc (fuel : nat) (startTime : Z) (d : PMS5003) (w : W)
    (rc : Z) (d' : PMS5003) (w' : W) :
  getDataInternal junk fuel startTime d w = Some (rc, d', w') ->
  (rc = 0 /\ exists buff, bad_data buff = false /\ d' = store_fields buff d) \/
  ((rc = 1 \/ rc = 2) /\ d' = d).
Proof.
  intros E. destruct (getDataInternal_cases _ _ _ _ _ _ _ E) as (o & cs & _ & Ho).
  destruct o as [buff|].
  - destruct Ho as [(Hb & -> & ->)|(Hb & -> & ->)]; [right|left]; eauto.
  - destruct Ho as (-> & ->). right. auto.
Qed.

End Attempt.

(** ** One frame-read attempt *)

Section AttemptClaims.

Context {W : Type} `{Platform W}.
Variable junk : list byte.

(** C5, as amended.  When lines 143-171 hand a buffer to the validation,
    that is when the test of the timeout that follows the read completing the
    32 bytes still finds less than 800 ms elapsed, the attempt returns 0
    (success), with the fields stored, if and only if the sum of the first 30
    bytes modulo 2^16 equals the big-endian word at bytes 30-31 and the
    big-endian word at bytes 2-3 equals 28; it returns 2 (corrupt), with the
    object untouched, if and only if one of the two checks fails; and it
    returns one or the other. *)
Theorem getDataInternal_success_iff_checks (fuel : nat) (startTime : Z)
    (d : PMS5003) (w : W) (buff : list byte) (cs : list Check) (w' : W) :
  read_frame junk fuel startTime w = Some (Some buff, cs, w') ->
  length buff = 32%nat /\
  (getDataInternal junk fuel startTime d w = Some (0, store_fields buff d, w')
   <-> checksum_ok buff /\ length_ok buff) /\
  (getDataInternal junk fuel startTime d w = Some (2, d, w')
   <-> ~ (checksum_ok buff /\ length_ok buff)) /\
  (getDataInternal junk fuel startTime d w = Some (0, store_fields buff d, w')
   \/ getDataInternal junk fuel startTime d w = Some (2, d, w')) /\
  (exists cs0 c,
     cs = cs0 ++ [c] /\ seen c = 32%nat /\ elapsed c < 800 /\
     Forall (fun k => (seen k < 32)%nat) cs0).
Proof.
  intros E.
  destruct (read_frame_spec _ _ _ _ _ _ _ E)
    as (cs0 & c & Hcs & Hrun & Hlen & Hb & Hs & _).
  split; [exact Hlen|].
  assert (Htrace : exists cs0 c,
             cs = cs0 ++ [c] /\ seen c = 32%nat /\ elapsed c < 800 /\
             Forall (fun k => (seen k < 32)%nat) cs0).
  { exists cs0, c. repeat split; auto.
    eapply Forall_impl; [|exact Hrun]. intros k [_ Hk]. exact Hk. }
  unfold getDataInternal. rewrite E.
  rewrite <- bad_data_true_iff, <- bad_data_false_iff.
  destruct (bad_data buff); repeat split; intros; try congruence; auto;
    try discriminate.
Qed.

(** C3.  An attempt returns 0, 1 or 2.  When it returns 1 (timed out), the
    last test of the timeout found at least 800 ms elapsed since the start
    time given by the caller, and no test made within the budget had seen 32
    bytes assembled.  When it returns 2 (corrupt), the last test was within
    the budget with all 32 bytes assembled, and that buffer fails the
    checksum or the declared-length check. *)
Theorem getDataInternal_timeout_vs_corrupt (fuel : nat) (startTime : Z)
    (d : PMS5003) (w : W) (rc : Z) (d' : PMS5003) (w' : W) :
  getDataInternal junk fuel startTime d w = Some (rc, d', w') ->
  exists o cs cs0 c,
    read_frame junk fuel startTime w = Some (o, cs, w') /\
    cs = cs0 ++ [c] /\
    (rc = 0 \/ rc = 1 \/ rc = 2) /\
    (rc = 1 ->
       o = None /\
       800 <= elapsed c /\ elapsed c = millis w' - startTime /\
       Forall (fun k => elapsed k < 800 -> (seen k < 32)%nat) cs) /\
    (rc = 2 ->
       exists buff,
         o = Some buff /\ length buff = 32%nat /\
         seen c = 32%nat /\ elapsed c < 800 /\
         ~ (checksum_ok buff /\ length_ok buff)).
Proof.
  intros E.
  destruct (getDataInternal_cases _ _ _ _ _ _ _ _ E) as (o & cs & Er & Ho).
  destruct (read_frame_spec _ _ _ _ _ _ _ Er) as (cs0 & c & Hcs & Hrun & Hc).
  exists o, cs, cs0, c. split; [exact Er|]. split; [exact Hcs|].
  destruct o as [buff|].
  - destruct Hc as (Hlen & Hb & Hs & _).
    destruct Ho as [(Hbad & -> & ->)|(Hbad & -> & ->)].
    + split; [auto|]. split; [discriminate|]. intros _.
      exists buff. repeat split; auto.
      apply bad_data_true_iff. exact Hbad.
    + split; [auto|]. split; discriminate.
  - destruct Ho as (-> & ->). destruct Hc as (Ht & He & _).
    split; [auto|]. split; [|discriminate]. intros _.
    repeat split; auto.
    subst cs. apply Forall_app. split.
    + eapply Forall_impl; [|exact Hrun].
      intros k [_ Hk] _. exact Hk.
    + constructor; [|constructor]. unfold READ_TIMEOUT in Ht. intros Hk. lia.
Qed.

(** C7, as amended.  When an attempt succeeds, the twelve fields hold, in the
    order of their declaration, the big-endian 16-bit words at the offsets
    0, 2, 4, ..., 22 of the payload (bytes 4 to 27 of the frame); the bytes at
    the offsets 24 to 27 of the payload go to no field, the other members of
    the object are kept, and decoding checks nothing. *)
Theorem getDataInternal_decodes_fields (fuel : nat) (startTime : Z)
    (d : PMS5003) (w : W) (d' : PMS5003) (w' : W) :
  getDataInternal junk fuel startTime d w = Some (0, d', w') ->
  exists buff cs,
    read_frame junk fuel startTime w = Some (Some buff, cs, w') /\
    d' = store_fields buff d /\
    measurement d' = map (be16_at (payload_bytes buff)) field_offsets /\
    field_offsets = [0; 2; 4; 6; 8; 10; 12; 14; 16; 18; 20; 22]%nat /\
    Forall (fun v => 0 <= v < 65536) (measurement d') /\
    (forall other, firstn 28 other = firstn 28 buff ->
       measurement (store_fields other d) = measurement d').
Proof.
  intros E.
  destruct (getDataInternal_cases _ _ _ _ _ _ _ _ E) as (o & cs & Er & Ho).
  destruct o as [buff|]; [|destruct Ho; discriminate].
  destruct Ho as [(_ & Hrc & _)|(_ & _ & ->)]; [discriminate|].
  exists buff, cs. split; [exact Er|]. split; [reflexivity|].
  split; [apply store_fields_measurement|]. split; [reflexivity|]. split.
  - unfold measurement, store_fields. cbn -[u16_be at_].
    repeat (constructor; [apply u16_be_range|]). constructor.
  - intros other Ho. unfold measurement, store_fields. cbn -[u16_be at_].
    assert (Hat : forall i, (i < 28)%nat -> at_ other i = at_ buff i).
    { intros i Hi. unfold at_.
      rewrite <- (firstn_skipn 28 other), <- (firstn_skipn 28 buff), Ho.
      destruct (Nat.lt_ge_cases i (length (firstn 28 buff))) as [Hl|Hl].
      - rewrite !app_nth1; auto.
      - rewrite !app_nth2 by (rewrite ?Ho; lia).
        rewrite !nth_skipn. 
        assert (Hlo : length (firstn 28 other) = length (firstn 28 buff))
          by (rewrite Ho; reflexivity).
        rewrite !length_firstn in *.
        rewrite !nth_overflow by lia. reflexivity. }
    rewrite !Hat by lia. reflexivity.
Qed.

End AttemptClaims.

(** ** The retry loop of [getData] *)

Section Retry.

Context {W : Type} `{Platform W}.
Variable junk : list byte.

Lemma getData_tries_S (fuel tries : nat) (startTime : Z) (d : PMS5003) (w : W) :
  getData_tries junk fuel (S tries) startTime d w =
  match getDataInternal junk fuel startTime d w with
  | None => None
  | Some (rc, d1, w1) =>
      if rc =? 0 then Some (1, d1, w1)
      else if rc =? 1 then Some (0, d1, w1)
      else if rc =? 2 then getData_tries junk fuel tries (millis w1) d1 w1
      else getData_tries junk fuel tries startTime d1 w1
  end.
Proof. reflexivity. Qed.

Lemma attempts_nonempty (fuel : nat) (startTime : Z) (d : PMS5003) (w : W)
    (rcs : list Z) (d' : PMS5003) (w' : W) :
  attempts junk fuel startTime d w rcs d' w' -> rcs <> [].
Proof. intros A. destruct A; discriminate. Qed.

Lemma last_cons_nonempty (x : Z) (l : list Z) :
  l <> [] -> last (x :: l) 0 = last l 0.
Proof. destruct l; [congruence|reflexivity]. Qed.

Lemma getData_tries_sound (fuel : nat) :
  forall tries startTime d w v d' w',
    getData_tries junk fuel (S tries) startTime d w = Some (v, d', w') ->
    exists rcs,
      attempts junk fuel startTime d w rcs d' w' /\ verdict (S tries) rcs v.
Proof.
  induction tries as [|tries IH]; intros startTime d w v d' w' E;
    rewrite getData_tries_S in E;
    destruct (getDataInternal junk fuel startTime d w) as [[[rc d1] w1]|] eqn:Ei;
    try discriminate;
    destruct (getDataInternal_rc _ _ _ _ _ _ _ _ Ei)
      as [(-> & _)|([-> | ->] & _)];
    cbn [Z.eqb Pos.eqb] in E.
  - inversion E; subst. exists [0]. split; [apply attempts_last; exact Ei|].
    unfold verdict. simpl. split; [lia|]. auto.
  - inversion E; subst. exists [1]. split; [apply attempts_last; exact Ei|].
    unfold verdict. simpl. split; [lia|]. auto.
  - inversion E; subst. exists [2]. split; [apply attempts_last; exact Ei|].
    unfold verdict. simpl. split; [lia|]. auto.
  - inversion E; subst. exists [0]. split; [apply attempts_last; exact Ei|].
    unfold verdict. simpl. split; [lia|]. auto.
  - inversion E; subst. exists [1]. split; [apply attempts_last; exact Ei|].
    unfold verdict. simpl. split; [lia|]. auto.
  - destruct (IH _ _ _ _ _ _ E) as (rcs & A & (Hl & Hv)).
    pose proof (attempts_nonempty _ _ _ _ _ _ _ A) as Hne.
    exists (2 :: rcs). split; [eapply attempts_retry; eauto|].
    unfold verdict. rewrite last_cons_nonempty by exact Hne.
    simpl length. split; [lia|].
    destruct Hv as [Hv|[Hv|(Hv1 & Hv2 & Hv3)]]; [left; exact Hv| |].
    + right. left. exact Hv.
    + right. right. repeat split; [exact Hv1|lia|exact Hv3].
Qed.

Lemma getData_tries_complete (fuel : nat) :
  forall startTime d w rcs d' w',
    attempts junk fuel startTime d w rcs d' w' ->
    forall tries v,
      verdict (S tries) rcs v ->
      getData_tries junk fuel (S tries) startTime d w = Some (v, d', w').
Proof.
  intros startTime d w rcs d' w' A.
  induction A as [startTime d w rc d' w' Ei
                 |startTime d w d1 w1 rcs d' w' Ei A IH];
    intros tries v (Hl & Hv); rewrite getData_tries_S, Ei.
  - cbn [last length] in *.
    destruct Hv as [(-> & ->)|[(-> & ->)|(-> & Ht & ->)]];
      cbn [Z.eqb Pos.eqb]; try reflexivity.
    replace tries with 0%nat by lia. reflexivity.
  - cbn [Z.eqb Pos.eqb].
    pose proof (attempts_nonempty _ _ _ _ _ _ _ A) as Hne.
    rewrite last_cons_nonempty in Hv by exact Hne.
    cbn [length] in *.
    destruct tries as [|tries];
      [destruct rcs; [congruence|simpl in Hl; lia]|].
    apply IH. split.
    + destruct rcs; [congruence|]. simpl in *. lia.
    + destruct Hv as [Hv|[Hv|(Hv1 & Hv2 & Hv3)]]; [left; exact Hv| |].
      * right. left. exact Hv.
      * right. right. repeat split; [exact Hv1|lia|exact Hv3].
Qed.

(** Only a successful attempt changes the object, and it ends the loop. *)
Lemma getData_tries_object (fuel : nat) :
  forall tries startTime d w v d' w',
    getData_tries junk fuel tries startTime d w = Some (v, d', w') ->
    (v = 1 /\ exists buff, bad_data buff = false /\ d' = store_fields buff d) \/
    (v = 0 /\ d' = d).
Proof.
  induction tries as [|tries IH]; intros startTime d w v d' w' E.
  - inversion E; subst. right. auto.
  - rewrite getData_tries_S in E.
    destruct (getDataInternal junk fuel startTime d w) as [[[rc d1] w1]|] eqn:Ei;
      [|discriminate].
    destruct (getDataInternal_rc _ _ _ _ _ _ _ _ Ei)
      as [(-> & buff & Hb & ->)|([-> | ->] & ->)].
    + inversion E; subst. left. eauto.
    + inversion E; subst. right. auto.
    + apply (IH _ _ _ _ _ _ E).
Qed.

(** The attempts of a chain that ends with a 2 have all returned 2: the
    object is as it was. *)
Lemma attempts_corrupt_object (fuel : nat) (startTime : Z) (d : PMS5003)
    (w : W) (rcs : list Z) (d' : PMS5003) (w' : W) :
  attempts junk fuel startTime d w rcs d' w' -> last rcs 0 = 2 -> d' = d.
Proof.
  intros A. induction A as [startTime d w rc d' w' Ei
                           |startTime d w d1 w1 rcs d' w' Ei A IH]; intros Hl.
  - cbn [last] in Hl. subst rc.
    destruct (getDataInternal_rc _ _ _ _ _ _ _ _ Ei) as [(Hrc & _)|(_ & ->)];
      [discriminate|reflexivity].
  - rewrite last_cons_nonempty in Hl by (eapply attempts_nonempty; eauto).
    destruct (getDataInternal_rc _ _ _ _ _ _ _ _ Ei) as [(Hrc & _)|(_ & ->)];
      [discriminate|]. apply IH. exact Hl.
Qed.

(** A chain that ends with a 0: where its last attempt started. *)
Lemma attempts_success_last (fuel : nat) (startTime : Z) (d : PMS5003)
    (w : W) (rcs : list Z) (d' : PMS5003) (w' : W) :
  attempts junk fuel startTime d w rcs d' w' -> last rcs 0 = 0 ->
  exists startTime0 w0,
    ((startTime0 = startTime /\ w0 = w /\ rcs = [0]) \/
     (exists rcs0,
        rcs = rcs0 ++ [0] /\
        attempts junk fuel startTime d w rcs0 d w0 /\
        last rcs0 0 = 2 /\ startTime0 = millis w0)) /\
    getDataInternal junk fuel startTime0 d w0 = Some (0, d', w').
Proof.
  intros A. induction A as [startTime d w rc d' w' Ei
                           |startTime d w d1 w1 rcs d' w' Ei A IH]; intros Hl.
  - cbn [last] in Hl. subst rc. exists startTime, w. split; [left; auto|].
    exact Ei.
  - pose proof (attempts_nonempty _ _ _ _ _ _ _ A) as Hne.
    rewrite last_cons_nonempty in Hl by exact Hne.
    assert (Hd1 : d1 = d).
    { destruct (getDataInternal_rc _ _ _ _ _ _ _ _ Ei) as [(Hrc & _)|(_ & ->)];
        [discriminate|reflexivity]. }
    subst d1.
    destruct (IH Hl) as (st0 & w0 & Hfrom & E0).
    exists st0, w0. split; [right|exact E0].
    destruct Hfrom as [(-> & -> & ->)|(rcs0 & -> & A0 & Hl0 & ->)].
    + exists [2]. repeat split; auto. apply attempts_last. exact Ei.
    + exists (2 :: rcs0). repeat split; auto.
      * eapply attempts_retry; eauto.
      * rewrite last_cons_nonempty; [exact Hl0|].
        eapply attempts_nonempty; eauto.
Qed.

End Retry.

(** ** [getData] *)

Section Fetch.

Context {W : Type} `{Platform W}.
Variable junk : list byte.

(** Past the two guards, [getData] is its retry loop. *)
Lemma getData_warmed_up (fuel : nat) (d : PMS5003) (w : W) :
  warmed_up d w ->
  getData junk fuel d w = getData_tries junk fuel TRIES_NUM (millis w) d w.
Proof.
  intros (Hu & Hs & Ht). unfold getData. rewrite Hu, Hs. simpl.
  destruct (Z.leb_spec (millis w - _wakeUpTime d) PREHEAT_TIME); [lia|].
  reflexivity.
Qed.

(** Stopped by a guard, [getData] returns at once: neither the object nor
    the world has changed, and nothing was read. *)
Lemma getData_guarded (fuel : nat) (d : PMS5003) (w : W) :
  ~ warmed_up d w ->
  exists v, getData junk fuel d w = Some (v, d, w) /\
    (v = 0 \/ v = to_int (Z.quot (millis w - _wakeUpTime d - PREHEAT_TIME) 1000)).
Proof.
  intros Hn. unfold getData.
  destruct (negb (_uart d) || _isSleeping d) eqn:Eg; [eauto|].
  destruct (Z.leb_spec (millis w - _wakeUpTime d) PREHEAT_TIME); [eauto|].
  exfalso. apply Hn. apply orb_false_elim in Eg. destruct Eg as [Eu Es].
  apply negb_false_iff in Eu. repeat split; auto.
Qed.

(** During the preheat the value returned is the time left, in seconds,
    rounded towards zero. *)
Lemma getData_preheat (fuel : nat) (d : PMS5003) (w : W) :
  _uart d = true -> _isSleeping d = false ->
  0 <= millis w - _wakeUpTime d <= PREHEAT_TIME ->
  getData junk fuel d w
  = Some (Z.quot (millis w - _wakeUpTime d - PREHEAT_TIME) 1000, d, w).
Proof.
  intros Hu Hs Ht. unfold getData. rewrite Hu, Hs. simpl.
  destruct (Z.leb_spec (millis w - _wakeUpTime d) PREHEAT_TIME); [|lia].
  unfold PREHEAT_TIME in *.
  assert (Hq : -30 <= Z.quot (millis w - _wakeUpTime d - 30000) 1000 <= 0).
  { split.
    - apply Z.quot_le_lower_bound; lia.
    - apply Z.quot_le_upper_bound; lia. }
  set (q := Z.quot (millis w - _wakeUpTime d - 30000) 1000) in *.
  unfold to_int. rewrite Z.mod_small by lia.
  replace (q + 2147483648 - 2147483648) with q by lia. reflexivity.
Qed.

(** In the last second of the preheat that value is 0. *)
Lemma getData_preheat_last_second (fuel : nat) (d : PMS5003) (w : W) :
  _uart d = true -> _isSleeping d = false ->
  PREHEAT_TIME - 1000 < millis w - _wakeUpTime d <= PREHEAT_TIME ->
  getData junk fuel d w = Some (0, d, w).
Proof.
  intros Hu Hs Ht. rewrite getData_preheat
    by first [assumption | unfold PREHEAT_TIME in *; lia].
  unfold PREHEAT_TIME in *.
  replace (Z.quot (millis w - _wakeUpTime d - 30000) 1000) with 0;
    [reflexivity|].
  symmetry. apply Z.quot_small_iff; lia.
Qed.

(** C2.  For an awake, warmed-up driver with a transport, [getData] returns
    [v] and ends in [d'], [w'] exactly when a chain of frame reads ran from
    the entry state to [d'], [w'], the first with the time of entry as start
    time and each retry with the clock as it stood after a read that
    returned 2, of one to three reads in all, such that either the last read
    returned 0 and [v] is 1, or the last read returned 1 and [v] is 0, or
    the last read returned 2, was the third, and [v] is 0. *)
Theorem getData_retry_policy (fuel : nat) (d : PMS5003) (w : W)
    (v : Z) (d' : PMS5003) (w' : W) :
  warmed_up d w ->
  (getData junk fuel d w = Some (v, d', w') <->
   exists rcs,
     attempts junk fuel (millis w) d w rcs d' w' /\
     (1 <= length rcs <= 3)%nat /\
     ((last rcs 0 = 0 /\ v = 1) \/
      (last rcs 0 = 1 /\ v = 0) \/
      (last rcs 0 = 2 /\ length rcs = 3%nat /\ v = 0))).
Proof.
  intros Hw. rewrite (getData_warmed_up fuel d w Hw). unfold TRIES_NUM. split.
  - intros E. destruct (getData_tries_sound _ _ _ _ _ _ _ _ _ E) as (rcs & A & V).
    exists rcs. split; [exact A|exact V].
  - intros (rcs & A & V).
    apply (getData_tries_complete _ _ _ _ _ _ _ _ A). exact V.
Qed.

(** C6.  When [getData] returns anything but 1, the object, and so each of
    its twelve fields, is as it was before the call.  Whatever it returns,
    either the object is as it was, or the call returns 1 and all twelve
    fields were taken from the buffer of the last frame read of the call,
    which passed the checksum and the declared-length checks, the other
    members being kept.  That frame read started from the world of entry,
    or from the world left by one or two frame reads of the call that each
    returned 2 and left the object as it was. *)
Theorem getData_failure_keeps_measurement (fuel : nat) (d : PMS5003) (w : W)
    (v : Z) (d' : PMS5003) (w' : W) :
  getData junk fuel d w = Some (v, d', w') ->
  (v <> 1 -> d' = d /\ measurement d' = measurement d) /\
  (d' = d \/
   (v = 1 /\
    exists startTime w0 buff cs,
      ((startTime = millis w /\ w0 = w) \/
       (exists rcs,
          attempts junk fuel (millis w) d w rcs d w0 /\
          last rcs 0 = 2 /\ (length rcs <= 2)%nat /\
          startTime = millis w0)) /\
      read_frame junk fuel startTime w0 = Some (Some buff, cs, w') /\
      checksum_ok buff /\ length_ok buff /\
      d' = store_fields buff d /\
      measurement d' = map (be16_at (payload_bytes buff)) field_offsets)).
Proof.
  intros E.
  assert (Hcases :
    (v = 1 /\ warmed_up d w /\
     getData_tries junk fuel TRIES_NUM (millis w) d w = Some (v, d', w'))
    \/ d' = d).
  { unfold getData in E.
    destruct (negb (_uart d) || _isSleeping d) eqn:Eg.
    - injection E as Hv Hd Hw. right. auto.
    - destruct (Z.leb_spec (millis w - _wakeUpTime d) PREHEAT_TIME).
      + injection E as Hv Hd Hw. right. auto.
      + destruct (getData_tries_object _ _ _ _ _ _ _ _ _ E)
          as [(-> & _)|(-> & ->)]; [left|right; reflexivity].
        apply orb_false_elim in Eg. destruct Eg as [Eu Es].
        apply negb_false_iff in Eu. repeat split; auto. }
  destruct Hcases as [(-> & _ & Et) | ->]; [|split; auto].
  split; [congruence|]. right. split; [reflexivity|].
  destruct (getData_tries_sound _ _ _ _ _ _ _ _ _ Et) as (rcs & A & Hl & Hv).
  assert (Hlast : last rcs 0 = 0).
  { destruct Hv as [(Hv & _)|[(_ & Hv)|(_ & _ & Hv)]];
      [exact Hv|discriminate|discriminate]. }
  destruct (attempts_success_last _ _ _ _ _ _ _ _ A Hlast)
    as (startTime & w0 & Hfrom & Ei).
  destruct (getDataInternal_cases _ _ _ _ _ _ _ _ Ei) as (o & cs & Er & Ho).
  destruct o as [buff|]; [|destruct Ho; discriminate].
  destruct Ho as [(_ & Hrc & _)|(Hbad & _ & ->)]; [discriminate|].
  apply bad_data_false_iff in Hbad. destruct Hbad as [Hc Hlen].
  exists startTime, w0, buff, cs. split.
  - destruct Hfrom as [(-> & -> & _)|(rcs0 & -> & A0 & Hl0 & ->)];
      [left; auto|right].
    exists rcs0. repeat split; auto.
    rewrite length_app in Hl. cbn [length] in Hl. lia.
  - repeat split; auto. apply store_fields_measurement.
Qed.

(** C10.  In every state [getData] goes on to its frame reads exactly when
    the transport is configured, the driver is not sleeping and more than
    30 000 ms have elapsed since wake; [isReady] on that same state then
    returns true.  In every other state [getData] returns at once, with 0 or
    the preheat value, and has read nothing; [isReady] then returns false,
    unless the readiness flag is already latched and the driver awake.
    [isReady] returns true exactly for an awake driver whose flag is latched
    or for which the condition of [getData] holds: with the flag not yet
    latched, both test the same condition. *)
Theorem getData_past_guards_isReady (fuel : nat) (d : PMS5003) (w : W) :
  (warmed_up d w <->
   _uart d = true /\ _isSleeping d = false /\
   30000 < millis w - _wakeUpTime d) /\
  (warmed_up d w ->
   getData junk fuel d w = getData_tries junk fuel TRIES_NUM (millis w) d w /\
   fst (isReady d w) = true) /\
  (~ warmed_up d w ->
   (exists v,
      getData junk fuel d w = Some (v, d, w) /\
      (v = 0 \/
       v = to_int (Z.quot (millis w - _wakeUpTime d - PREHEAT_TIME) 1000))) /\
   (_isReady d = false -> isReady d w = (false, d)) /\
   (coherent d w -> isReady d w = (false, d))) /\
  (fst (isReady d w) = true <->
   _isSleeping d = false /\ (_isReady d = true \/ warmed_up d w)) /\
  (_isReady d = false -> (fst (isReady d w) = true <-> warmed_up d w)).
Proof.
  assert (Hready : fst (isReady d w) = true <->
                   _isSleeping d = false /\
                   (_isReady d = true \/ warmed_up d w)).
  { unfold isReady, warmed_up.
    destruct (_isSleeping d) eqn:Es; cbn [fst].
    - split; [discriminate|]. intros [Hs _]. discriminate.
    - destruct (_isReady d) eqn:Er; cbn [negb fst].
      + rewrite Er. split; auto.
      + destruct (_uart d) eqn:Eu; cbn [andb].
        * destruct (Z.ltb_spec PREHEAT_TIME (millis w - _wakeUpTime d));
            cbn [_isReady set_isReady].
          -- split; auto.
          -- rewrite Er. split; [discriminate|].
             intros [_ [Hr|(_ & _ & Hr)]]; [discriminate|lia].
        * rewrite Er. split; [discriminate|].
          intros [_ [Hr|(Hr & _)]]; discriminate. }
  assert (Hidle : _isReady d = false -> ~ warmed_up d w ->
                  isReady d w = (false, d)).
  { intros Er Hn.
    assert (Hf : fst (isReady d w) = false).
    { apply not_true_is_false. intros Ef. apply Hready in Ef.
      destruct Ef as [_ [Hr|Hw]]; [congruence|contradiction]. }
    revert Hf. unfold isReady.
    destruct (_isSleeping d); [reflexivity|]. rewrite Er. cbn [negb].
    destruct (_uart d && (PREHEAT_TIME <? millis w - _wakeUpTime d));
      cbn [fst _isReady set_isReady]; [discriminate|].
    rewrite Er. reflexivity. }
  split; [unfold warmed_up, PREHEAT_TIME; reflexivity|].
  split; [|split; [|split]].
  - intros Hw. split; [apply getData_warmed_up; exact Hw|].
    apply Hready. split; [apply Hw|right; exact Hw].
  - intros Hn. split; [apply getData_guarded; exact Hn|]. split.
    + intros Er. apply Hidle; assumption.
    + intros Hc. apply Hidle; [|exact Hn].
      destruct (_isReady d) eqn:Er; [|reflexivity].
      exfalso. apply Hn. destruct (Hc Er) as (Hs & Hu & Ht).
      repeat split; auto.
  - exact Hready.
  - intros Er. rewrite Hready. split.
    + intros [_ [Hr|Hw]]; [congruence|exact Hw].
    + intros Hw. destruct Hw as (Hu & Hs & Ht). split; [exact Hs|].
      right. repeat split; auto.
Qed.

End Fetch.

(** ** When a call returns *)

Section Totality.

Context {W : Type} `{Platform W}.
Variable junk : list byte.

Lemma getDataInternal_fuel_mono (fuel fuel' : nat) (startTime : Z)
    (d : PMS5003) (w : W) r :
  (fuel <= fuel')%nat ->
  getDataInternal junk fuel startTime d w = Some r ->
  getDataInternal junk fuel' startTime d w = Some r.
Proof.
  intros Hle E. unfold getDataInternal in *.
  destruct (read_frame junk fuel startTime w) as [p|] eqn:Er; [|discriminate].
  rewrite (read_frame_fuel_mono _ _ _ _ _ _ Hle Er). exact E.
Qed.

Lemma getData_tries_fuel_mono (fuel fuel' : nat) :
  (fuel <= fuel')%nat ->
  forall tries startTime d w r,
    getData_tries junk fuel tries startTime d w = Some r ->
    getData_tries junk fuel' tries startTime d w = Some r.
Proof.
  intros Hle. induction tries as [|tries IH]; intros startTime d w r E;
    [exact E|].
  cbn [getData_tries] in *.
  destruct (getDataInternal junk fuel startTime d w) as [[[rc d1] w1]|] eqn:Ei;
    [|discriminate].
  rewrite (getDataInternal_fuel_mono _ _ _ _ _ _ Hle Ei).
  destruct (rc =? 0); [exact E|]. destruct (rc =? 1); [exact E|].
  destruct (rc =? 2); apply IH; exact E.
Qed.

(** Nor does it depend on what the array held on entry. *)
Lemma getDataInternal_junk (junk' : list byte) (fuel : nat) (startTime : Z)
    (d : PMS5003) (w : W) :
  getDataInternal junk fuel startTime d w
  = getDataInternal junk' fuel startTime d w.
Proof.
  unfold getDataInternal. rewrite (read_frame_junk junk junk'). reflexivity.
Qed.

Lemma getData_tries_junk (junk' : list byte) (fuel : nat) :
  forall tries startTime d w,
    getData_tries junk fuel tries startTime d w
    = getData_tries junk' fuel tries startTime d w.
Proof.
  induction tries as [|tries IH]; intros startTime d w; [reflexivity|].
  cbn [getData_tries]. rewrite (getDataInternal_junk junk').
  destruct (getDataInternal junk' fuel startTime d w) as [[[rc d1] w1]|];
    [|reflexivity].
  destruct (rc =? 0); [reflexivity|]. destruct (rc =? 1); [reflexivity|].
  destruct (rc =? 2); apply IH.
Qed.

Lemma getData_junk (junk' : list byte) (fuel : nat) (d : PMS5003) (w : W) :
  getData junk fuel d w = getData junk' fuel d w.
Proof.
  unfold getData.
  destruct (negb (_uart d) || _isSleeping d); [reflexivity|].
  destruct (millis w - _wakeUpTime d <=? PREHEAT_TIME); [reflexivity|].
  apply getData_tries_junk.
Qed.

(** The result of [getData] does not depend on the fuel, once there is
    enough of it. *)
Lemma getData_fuel_mono (fuel fuel' : nat) (d : PMS5003) (w : W) r :
  (fuel <= fuel')%nat ->
  getData junk fuel d w = Some r -> getData junk fuel' d w = Some r.
Proof.
  intros Hle E. unfold getData in *.
  destruct (negb (_uart d) || _isSleeping d); [exact E|].
  destruct (millis w - _wakeUpTime d <=? PREHEAT_TIME); [exact E|].
  apply (getData_tries_fuel_mono _ _ Hle _ _ _ _ _ E).
Qed.

Section Ticking.

Variables (horizon slack : Z) (Inv : W -> Prop).
Hypothesis Htick : ticking horizon slack Inv.

Lemma getDataInternal_terminates (fuel : nat) (startTime : Z)
    (d : PMS5003) (w : W) :
  Inv w -> (0 < fuel)%nat ->
  startTime + READ_TIMEOUT <= horizon ->
  startTime + READ_TIMEOUT - millis w <= Z.of_nat fuel ->
  exists rc d' w',
    getDataInternal junk fuel startTime d w = Some (rc, d', w') /\
    millis w <= millis w' /\
    (rc <> 1 -> Inv w' /\ millis w' < startTime + READ_TIMEOUT + slack).
Proof.
  intros Hi Hf Hh Hb. unfold getDataInternal.
  destruct (read_frame_terminates horizon slack Inv Htick junk startTime fuel w
              Hi Hf Hh Hb)
    as (o & cs & w' & E & Ht' & Hr).
  rewrite E. destruct o as [buff|]; [destruct (bad_data buff)|];
    do 3 eexists; (split; [reflexivity|]); (split; [exact Ht'|]).
  - intros _. apply Hr. discriminate.
  - intros _. apply Hr. discriminate.
  - intros Hn. contradiction.
Qed.

Lemma getData_tries_terminates (fuel : nat) :
  (800 <= fuel)%nat -> 0 <= slack ->
  forall tries startTime d w,
    Inv w ->
    startTime + READ_TIMEOUT - millis w <= Z.of_nat fuel ->
    startTime + Z.of_nat tries * (READ_TIMEOUT + slack) <= horizon ->
    exists v d' w',
      getData_tries junk fuel tries startTime d w = Some (v, d', w') /\
      millis w <= millis w'.
Proof.
  intros Hf Hsl. unfold READ_TIMEOUT.
  induction tries as [|tries IH]; intros startTime d w Hi Hb Hh.
  - exists 0, d, w. split; [reflexivity|lia].
  - cbn [getData_tries].
    rewrite Nat2Z.inj_succ, Z.mul_succ_l in Hh.
    assert (Hpos : 0 <= Z.of_nat tries * (800 + slack))
      by (apply Z.mul_nonneg_nonneg; lia).
    destruct (getDataInternal_terminates fuel startTime d w Hi ltac:(lia)
                ltac:(unfold READ_TIMEOUT; lia) Hb)
      as (rc & d1 & w1 & E & Ht1 & Hr).
    rewrite E. unfold READ_TIMEOUT in Hr.
    destruct (getDataInternal_rc _ _ _ _ _ _ _ _ E)
      as [(-> & _)|([-> | ->] & _)]; cbn [Z.eqb Pos.eqb].
    + exists 1, d1, w1. auto.
    + exists 0, d1, w1. auto.
    + destruct (Hr ltac:(discriminate)) as [Hi1 Hlt].
      destruct (IH (millis w1) d1 w1 Hi1) as (v & d' & w' & E' & Ht');
        [lia|lia|].
      exists v, d', w'. split; [exact E'|lia].
Qed.

(** On a platform whose clock moves on, [getData] returns if the counter of
    [millis] does not start again from 0 within its three attempts, and 800
    units of fuel are enough for it. *)
Lemma getData_terminates (fuel : nat) (d : PMS5003) (w : W) :
  Inv w -> (800 <= fuel)%nat -> 0 <= slack ->
  millis w + 3 * (READ_TIMEOUT + slack) <= horizon ->
  exists v d' w',
    getData junk fuel d w = Some (v, d', w') /\ millis w <= millis w'.
Proof.
  intros Hi Hf Hsl Hh. unfold getData.
  destruct (negb (_uart d) || _isSleeping d).
  - exists 0, d, w. split; [reflexivity|lia].
  - destruct (millis w - _wakeUpTime d <=? PREHEAT_TIME).
    + do 3 eexists. split; [reflexivity|lia].
    + apply (getData_tries_terminates fuel Hf Hsl); [exact Hi| |exact Hh].
      unfold READ_TIMEOUT. lia.
Qed.

End Ticking.

End Totality.

(** ** Power state and readiness *)

Section Power.

Context {W : Type} `{Platform W}.
Variable junk : list byte.

(** With a sleep pin, [Sleep] drives the line low, clears the readiness
    flag and sets the sleeping flag; each of the two calls of [getData] that
    follow finds the sleeping flag set and returns at its first guard, so the
    one effect on the world is the write to the pin: nothing is read from the
    transport. *)
Lemma Sleep_with_pin (fuel : nat) (d : PMS5003) (w : W) :
  0 <= _sleepPin d ->
  Sleep junk fuel d w
  = Some (true, set_isSleeping (set_isReady d false) true,
          digitalWrite w (_sleepPin d) false).
Proof.
  intros Hp. unfold Sleep.
  destruct (Z.leb_spec 0 (_sleepPin d)); [|lia].
  unfold discard_reads, getData. simpl.
  rewrite !orb_true_r. reflexivity.
Qed.

Lemma Sleep_without_pin (fuel : nat) (d : PMS5003) (w : W) :
  _sleepPin d < 0 -> Sleep junk fuel d w = Some (_isSleeping d, d, w).
Proof.
  intros Hp. unfold Sleep.
  destruct (Z.leb_spec 0 (_sleepPin d)); [lia|reflexivity].
Qed.

Lemma getData_private (fuel : nat) (d : PMS5003) (w : W)
    (v : Z) (d' : PMS5003) (w' : W) :
  getData junk fuel d w = Some (v, d', w') ->
  _isReady d' = _isReady d /\ _isSleeping d' = _isSleeping d /\
  _uart d' = _uart d /\ _wakeUpTime d' = _wakeUpTime d /\
  _sleepPin d' = _sleepPin d.
Proof.
  intros E. unfold getData in E.
  destruct (negb (_uart d) || _isSleeping d).
  - injection E as _ <- _. repeat split.
  - destruct (millis w - _wakeUpTime d <=? PREHEAT_TIME).
    + injection E as _ <- _. repeat split.
    + destruct (getData_tries_object _ _ _ _ _ _ _ _ _ E)
        as [(_ & buff & _ & ->)|(_ & ->)]; repeat split.
Qed.

(** *** The readiness flag is never set too early *)

Lemma coherent_init (sleepPin : Z) (sleep : bool) (d : PMS5003) (w : W) :
  coherent (fst (init sleepPin sleep d w)) (snd (init sleepPin sleep d w)).
Proof.
  unfold coherent, init. simpl.
  destruct (0 <=? sleepPin); [destruct sleep|]; simpl; discriminate.
Qed.

Lemma coherent_isReady (d : PMS5003) (w : W) :
  coherent d w -> coherent (snd (isReady d w)) w.
Proof.
  intros Hc. unfold isReady.
  destruct (_isSleeping d) eqn:Es; [simpl; exact Hc|].
  destruct (_isReady d) eqn:Er; simpl; [exact Hc|].
  destruct (_uart d) eqn:Eu; simpl; [|exact Hc].
  destruct (Z.ltb_spec PREHEAT_TIME (millis w - _wakeUpTime d)); simpl;
    [|exact Hc].
  unfold coherent. simpl. intros _. auto.
Qed.

Lemma coherent_WakeUp (d : PMS5003) (w : W) :
  coherent d w -> coherent (snd (fst (WakeUp d w))) (snd (WakeUp d w)).
Proof.
  intros Hc. unfold WakeUp.
  destruct (0 <=? _sleepPin d); [|exact Hc].
  destruct (_isSleeping d) eqn:Es; [|exact Hc].
  unfold coherent. simpl. intros Hr.
  destruct (Hc Hr) as [Hs _]. congruence.
Qed.

Lemma coherent_Sleep (fuel : nat) (d : PMS5003) (w : W)
    (r : bool) (d' : PMS5003) (w' : W) :
  coherent d w -> Sleep junk fuel d w = Some (r, d', w') -> coherent d' w'.
Proof.
  intros Hc E. destruct (Z.le_gt_cases 0 (_sleepPin d)) as [Hp|Hp].
  - rewrite Sleep_with_pin in E by exact Hp.
    injection E as _ <- _. unfold coherent. simpl. discriminate.
  - rewrite Sleep_without_pin in E by lia.
    injection E as _ <- <-. exact Hc.
Qed.

(** Time passing keeps it true as long as the clock does not go back. *)
Lemma coherent_later (d d' : PMS5003) (w w' : W) :
  coherent d w -> millis w <= millis w' ->
  _isReady d' = _isReady d -> _isSleeping d' = _isSleeping d ->
  _uart d' = _uart d -> _wakeUpTime d' = _wakeUpTime d ->
  coherent d' w'.
Proof.
  unfold coherent. intros Hc Hm -> -> -> -> Hr.
  destruct (Hc Hr) as (Hs & Hu & Ht). repeat split; auto. lia.
Qed.

(** On a platform whose clock moves on, [getData] keeps it true, if the
    counter of [millis] does not start again from 0 during the call. *)
Lemma coherent_getData (horizon slack : Z) (Inv : W -> Prop) (fuel : nat)
    (d : PMS5003) (w : W) (v : Z) (d' : PMS5003) (w' : W) :
  ticking horizon slack Inv -> Inv w -> (800 <= fuel)%nat -> 0 <= slack ->
  millis w + 3 * (READ_TIMEOUT + slack) <= horizon ->
  coherent d w -> getData junk fuel d w = Some (v, d', w') -> coherent d' w'.
Proof.
  intros Htick Hi Hf Hsl Hh Hc E.
  destruct (getData_terminates junk horizon slack Inv Htick fuel d w Hi Hf
              Hsl Hh)
    as (v0 & d0 & w0 & E0 & Ht).
  rewrite E in E0. injection E0 as <- <- <-.
  destruct (getData_private _ _ _ _ _ _ E) as (Hr & Hs & Hu & Hw & _).
  apply (coherent_later d d' w w'); auto.
Qed.

(** With the flag not latched, [isReady] and the guards of [getData] test
    the same condition. *)
Lemma isReady_gate (d : PMS5003) (w : W) :
  _isReady d = false ->
  fst (isReady d w)
  = negb (negb (_uart d) || _isSleeping d)
    && negb (millis w - _wakeUpTime d <=? PREHEAT_TIME).
Proof.
  intros Hr. unfold isReady. rewrite Hr.
  destruct (_isSleeping d) eqn:Es; [rewrite orb_true_r; reflexivity|].
  destruct (_uart d) eqn:Eu; simpl; [|exact Hr].
  rewrite Z.leb_antisym, negb_involutive.
  destruct (PREHEAT_TIME <? millis w - _wakeUpTime d); simpl; auto.
Qed.

(** C9, as amended.  For a driver that is awake, has a transport, and whose
    readiness flag, if already latched, was latched after the preheat,
    [isReady] returns true if and only if strictly more than 30 000 ms have
    elapsed since the last wake; the answer is computed from the clock at the
    query and is latched in the flag. *)
Theorem isReady_iff_preheat_elapsed (d : PMS5003) (w : W) :
  _isSleeping d = false -> _uart d = true -> coherent d w ->
  (fst (isReady d w) = true <-> 30000 < millis w - _wakeUpTime d) /\
  _isReady (snd (isReady d w)) = fst (isReady d w) /\
  (_isReady d = false ->
   fst (isReady d w) = (30000 <? millis w - _wakeUpTime d)).
Proof.
  intros Hs Hu Hc. unfold isReady. rewrite Hs, Hu.
  destruct (_isReady d) eqn:Er; simpl.
  - rewrite Er. destruct (Hc Er) as (_ & _ & Ht).
    unfold PREHEAT_TIME in Ht. repeat split; auto. discriminate.
  - unfold PREHEAT_TIME.
    destruct (Z.ltb_spec 30000 (millis w - _wakeUpTime d)); simpl.
    + repeat split; auto.
    + rewrite Er. repeat split; auto; try discriminate. lia.
Qed.

End Power.

(** ** The clock of [Board] *)

Lemma board_clock_32_bit (w : Board) : 0 <= millis w < 4294967296.
Proof. apply Z.mod_pos_bound. lia. Qed.


Lemma board_silence : silent board_silent.
Proof.
  unfold silent, board_silent. intros w len Hrx.
  cbn [readBytes yield BoardPlatform fst snd board_rx]. rewrite Hrx.
  rewrite firstn_nil, skipn_nil. split; reflexivity.
Qed.

(** ** The driver on [Sim] *)

Lemma sim_ticking (horizon : Z) : ticking horizon 0 sim_ticks.
Proof.
  unfold ticking, sim_ticks. intros w len Hw. simpl.
  split; [lia|]. intros _. split; [exact Hw|lia].
Qed.

(** On [Sim], whose clock counts on for ever, every call of [getData]
    returns where reads take time. *)
Lemma getData_returns_on_Sim (junk : list byte) (fuel : nat) (d : PMS5003)
    (w : Sim) :
  1 <= sim_read_ms w -> (800 <= fuel)%nat ->
  exists v d' w', getData junk fuel d w = Some (v, d', w').
Proof.
  intros Hw Hf.
  destruct (getData_terminates junk (millis w + 3 * (READ_TIMEOUT + 0)) 0
              sim_ticks (sim_ticking _) fuel d w Hw Hf ltac:(lia)
              (Z.le_refl _))
    as (v & d' & w' & E & _). eauto.
Qed.

(** *** Resynchronisation after garbage without 0x42 *)

Lemma sim_read_one (t : Z) (b : byte) (rx : list byte) (c : Z)
    (pins : list (Z * bool)) :
  readBytes (mkSim t (b :: rx) c pins) 1 = ([b], mkSim (t + c) rx c pins).
Proof. reflexivity. Qed.

Lemma at_write_one (buff : list byte) (n : nat) (b : byte) :
  (n < length buff)%nat -> at_ (write_at buff n [b]) n = b.
Proof.
  intros Hn. replace n with (n + 0)%nat at 2 by lia.
  rewrite at_write_at_in; [reflexivity|lia|simpl; lia].
Qed.

Lemma byte_eqb_refl (x : byte) : Byte.eqb x x = true.
Proof. apply Byte.byte_dec_lb. reflexivity. Qed.

Lemma byte_eqb_neq (x y : byte) : x <> y -> Byte.eqb x y = false.
Proof.
  intros Hne. destruct (Byte.eqb x y) eqn:E; [|reflexivity].
  apply Byte.byte_dec_bl in E. contradiction.
Qed.

Section SimSteps.

Variables (startTime t c : Z) (pins : list (Z * bool)) (rx : list byte).
Hypothesis Hbudget : t + c - startTime < READ_TIMEOUT.

(** A byte other than 0x42 read at [n = 0] is dropped. *)
Lemma resync_sim_garbage (fuel : nat) (buff : list byte) (b : byte) :
  length buff = BUFF_SIZE -> b <> x42 ->
  resync (S fuel) startTime buff 0 (mkSim t (b :: rx) c pins)
  = match resync fuel startTime (write_at buff 0 [b]) 0
            (mkSim (t + c) rx c pins) with
    | Some (r, o, cs, w') =>
        Some (r, o, mkCheck 0 (t + c - startTime) :: cs, w')
    | None => None
    end.
Proof.
  intros Hlen Hb.
  assert (H0 : at_ (write_at buff 0 [b]) 0 = b)
    by (apply at_write_one; rewrite Hlen; unfold BUFF_SIZE; lia).
  cbn [resync]. rewrite sim_read_one. cbn [length].
  unfold on_read. rewrite H0, (byte_eqb_neq _ _ Hb).
  cbn [Nat.ltb Nat.leb Nat.eqb andb]. cbv beta iota zeta.
  change (millis (mkSim (t + c) rx c pins)) with (t + c).
  destruct (Z.leb_spec READ_TIMEOUT (t + c - startTime)); [lia|].
  rewrite H0, (byte_eqb_neq _ _ Hb). cbn [negb orb]. reflexivity.
Qed.

(** 0x42 read at [n = 0] is kept as byte 0. *)
Lemma resync_sim_first (fuel : nat) (buff : list byte) :
  length buff = BUFF_SIZE ->
  resync (S fuel) startTime buff 0 (mkSim t (x42 :: rx) c pins)
  = match resync fuel startTime (write_at (write_at buff 0 [x42]) 1 [x00]) 1
            (mkSim (t + c) rx c pins) with
    | Some (r, o, cs, w') =>
        Some (r, o, mkCheck 1 (t + c - startTime) :: cs, w')
    | None => None
    end.
Proof.
  intros Hlen.
  assert (Hl0 : length (write_at buff 0 [x42]) = BUFF_SIZE)
    by (rewrite write_at_length; rewrite ?Hlen; unfold BUFF_SIZE;
        cbn [length]; lia).
  assert (H0 : at_ (write_at buff 0 [x42]) 0 = x42)
    by (apply at_write_one; rewrite Hlen; unfold BUFF_SIZE; lia).
  assert (H10 : at_ (write_at (write_at buff 0 [x42]) 1 [x00]) 0 = x42).
  { rewrite at_write_at_below; [exact H0|]. rewrite Hl0. unfold BUFF_SIZE. lia. }
  assert (H11 : at_ (write_at (write_at buff 0 [x42]) 1 [x00]) 1 = x00)
    by (apply at_write_one; rewrite Hl0; unfold BUFF_SIZE; lia).
  cbn [resync]. rewrite sim_read_one. cbn [length].
  unfold on_read. rewrite H0, byte_eqb_refl.
  cbn [Nat.ltb Nat.leb Nat.eqb andb]. cbv beta iota zeta.
  change (millis (mkSim (t + c) rx c pins)) with (t + c).
  destruct (Z.leb_spec READ_TIMEOUT (t + c - startTime)); [lia|].
  rewrite H10, H11, byte_eqb_refl.
  rewrite (byte_eqb_neq x00 x4d) by discriminate.
  cbn [negb orb]. reflexivity.
Qed.

(** 0x4D read at [n = 1] ends the loop. *)
Lemma resync_sim_second (fuel : nat) (buff : list byte) :
  length buff = BUFF_SIZE -> at_ buff 0 = x42 ->
  resync (S fuel) startTime buff 1 (mkSim t (x4d :: rx) c pins)
  = Some (true, write_at buff 1 [x4d], [mkCheck 1 (t + c - startTime)],
          mkSim (t + c) rx c pins).
Proof.
  intros Hlen Hb0.
  assert (H0 : at_ (write_at buff 1 [x4d]) 0 = x42).
  { rewrite at_write_at_below; [exact Hb0|]. rewrite Hlen. unfold BUFF_SIZE. lia. }
  assert (H1 : at_ (write_at buff 1 [x4d]) 1 = x4d)
    by (apply at_write_one; rewrite Hlen; unfold BUFF_SIZE; lia).
  cbn [resync]. rewrite sim_read_one. cbn [length].
  unfold on_read. rewrite H1, byte_eqb_refl.
  cbn [Nat.ltb Nat.leb Nat.eqb andb negb]. cbv beta iota zeta.
  change (millis (mkSim (t + c) rx c pins)) with (t + c).
  destruct (Z.leb_spec READ_TIMEOUT (t + c - startTime)); [lia|].
  rewrite H0, H1, !byte_eqb_refl. cbn [negb orb]. reflexivity.
Qed.

(** Any other byte read at [n = 1] is dropped, 0x42 included, and the
    search starts again at [n = 0] with the byte after it. *)
Lemma resync_sim_mismatch (fuel : nat) (buff : list byte) (b : byte) :
  length buff = BUFF_SIZE -> at_ buff 0 = x42 -> b <> x4d ->
  resync (S fuel) startTime buff 1 (mkSim t (b :: rx) c pins)
  = match resync fuel startTime (write_at buff 1 [b]) 0
            (mkSim (t + c) rx c pins) with
    | Some (r, o, cs, w') =>
        Some (r, o, mkCheck 0 (t + c - startTime) :: cs, w')
    | None => None
    end.
Proof.
  intros Hlen Hb0 Hb.
  assert (H0 : at_ (write_at buff 1 [b]) 0 = x42).
  { rewrite at_write_at_below; [exact Hb0|]. rewrite Hlen. unfold BUFF_SIZE. lia. }
  assert (H1 : at_ (write_at buff 1 [b]) 1 = b)
    by (apply at_write_one; rewrite Hlen; unfold BUFF_SIZE; lia).
  cbn [resync]. rewrite sim_read_one. cbn [length].
  unfold on_read. rewrite H1, (byte_eqb_neq _ _ Hb).
  cbn [Nat.ltb Nat.leb Nat.eqb andb negb]. cbv beta iota zeta.
  change (millis (mkSim (t + c) rx c pins)) with (t + c).
  destruct (Z.leb_spec READ_TIMEOUT (t + c - startTime)); [lia|].
  rewrite H0, H1, byte_eqb_refl, (byte_eqb_neq _ _ Hb).
  cbn [negb orb]. reflexivity.
Qed.

End SimSteps.

(** After garbage without 0x42, the marker is found. *)
Lemma resync_sim_clean_garbage (startTime c : Z) (pins : list (Z * bool))
    (rx : list byte) :
  0 <= c ->
  forall garbage t buff fuel,
    Forall (fun b => b <> x42) garbage ->
    length buff = BUFF_SIZE ->
    t + (Z.of_nat (length garbage) + 2) * c - startTime < READ_TIMEOUT ->
    exists cs o,
      resync (length garbage + 2 + fuel) startTime buff 0
        (mkSim t (garbage ++ x42 :: x4d :: rx) c pins)
      = Some (true, o, cs,
              mkSim (t + (Z.of_nat (length garbage) + 2) * c) rx c pins) /\
      length o = BUFF_SIZE /\ at_ o 0 = x42 /\ at_ o 1 = x4d.
Proof.
  intros Hc. induction garbage as [|b g IH]; intros t buff fuel Hg Hlen Ht.
  - cbn [length app Nat.add] in *.
    assert (Hl0 : length (write_at buff 0 [x42]) = BUFF_SIZE)
      by (rewrite write_at_length; rewrite ?Hlen; unfold BUFF_SIZE;
          cbn [length]; lia).
    assert (Hl1 : length (write_at (write_at buff 0 [x42]) 1 [x00]) = BUFF_SIZE)
      by (rewrite write_at_length; rewrite ?Hl0; unfold BUFF_SIZE;
          cbn [length]; lia).
    assert (H10 : at_ (write_at (write_at buff 0 [x42]) 1 [x00]) 0 = x42).
    { rewrite at_write_at_below by (rewrite Hl0; unfold BUFF_SIZE; lia).
      apply at_write_one. rewrite Hlen. unfold BUFF_SIZE. lia. }
    change (Z.of_nat 0) with 0 in *.
    rewrite resync_sim_first; [|lia|exact Hlen].
    rewrite resync_sim_second; [|lia|exact Hl1|exact H10].
    replace (t + (0 + 2) * c) with (t + c + c) by lia.
    do 2 eexists. split; [reflexivity|].
    split; [|split].
    + rewrite write_at_length; rewrite ?Hl1; unfold BUFF_SIZE;
        cbn [length]; lia.
    + rewrite at_write_at_below by (rewrite Hl1; unfold BUFF_SIZE; lia).
      exact H10.
    + apply at_write_one. rewrite Hl1. unfold BUFF_SIZE. lia.
  - inversion Hg as [|? ? Hb Hg']; subst.
    cbn [length] in Ht.
    assert (Hl0 : length (write_at buff 0 [b]) = BUFF_SIZE)
      by (rewrite write_at_length; rewrite ?Hlen; unfold BUFF_SIZE;
          cbn [length]; lia).
    cbn [length app Nat.add].
    rewrite resync_sim_garbage; [|nia|exact Hlen|exact Hb].
    destruct (IH (t + c) (write_at buff 0 [b]) fuel Hg' Hl0 ltac:(nia))
      as (cs & o & E & Ho).
    rewrite E.
    replace (t + (Z.of_nat (S (length g)) + 2) * c)
      with (t + c + (Z.of_nat (length g) + 2) * c) by lia.
    do 2 eexists. split; [reflexivity|exact Ho].
Qed.

(** One read of the payload loop takes the 30 bytes that follow the
    marker. *)
Lemma payload_sim_whole (startTime t c : Z) (pins : list (Z * bool))
    (body rest buff : list byte) (fuel : nat) :
  length buff = BUFF_SIZE -> at_ buff 0 = x42 -> at_ buff 1 = x4d ->
  length body = 30%nat ->
  t + c - startTime < READ_TIMEOUT ->
  payload (S fuel) startTime buff 2 (mkSim t (body ++ rest) c pins)
  = Some (true, x42 :: x4d :: body, [mkCheck 32 (t + c - startTime)],
          mkSim (t + c) rest c pins).
Proof.
  intros Hlen H0 H1 Hbody Ht.
  cbn [payload].
  change (BUFF_SIZE - 2)%nat with 30%nat.
  assert (Er : readBytes (mkSim t (body ++ rest) c pins) 30
               = (body, mkSim (t + c) rest c pins)).
  { cbn [readBytes SimPlatform sim_rx sim_clock sim_read_ms sim_pins].
    rewrite <- Hbody, firstn_app, Nat.sub_diag, firstn_all, firstn_O, app_nil_r.
    rewrite skipn_app, Nat.sub_diag, skipn_all, skipn_O. reflexivity. }
  rewrite Er, Hbody. cbn [Nat.ltb Nat.leb Nat.add].
  change (millis (mkSim (t + c) rest c pins)) with (t + c).
  destruct (Z.leb_spec READ_TIMEOUT (t + c - startTime)); [lia|].
  change (32 <? BUFF_SIZE)%nat with false. cbv iota.
  cbn [yield SimPlatform].
  replace (write_at buff 2 body) with (x42 :: x4d :: body); [reflexivity|].
  apply agree_all_eq. unfold agree.
  rewrite write_at_length by (rewrite Hlen, Hbody; unfold BUFF_SIZE; lia).
  split; [cbn [length]; rewrite Hbody; reflexivity|]. split; [exact Hlen|].
  intros i Hi.
  destruct i as [|[|i]].
  - rewrite at_write_at_below by (rewrite Hlen; unfold BUFF_SIZE; lia).
    symmetry. exact H0.
  - rewrite at_write_at_below by (rewrite Hlen; unfold BUFF_SIZE; lia).
    symmetry. exact H1.
  - change (S (S i)) with (2 + i)%nat.
    rewrite at_write_at_in by (rewrite ?Hlen, ?Hbody; unfold BUFF_SIZE in *; lia).
    reflexivity.
Qed.

(** A frame after garbage without 0x42, delivered within the budget, is
    read: the attempt validates that frame, and stores its fields when it
    is valid. *)
Lemma getDataInternal_sim_clean_garbage (junk garbage body rest : list byte)
    (t c : Z) (pins : list (Z * bool)) (d : PMS5003) (fuel : nat) :
  Forall (fun b => b <> x42) garbage ->
  length body = 30%nat ->
  0 <= c -> (Z.of_nat (length garbage) + 3) * c < READ_TIMEOUT ->
  getDataInternal junk (length garbage + 2 + fuel) t d
    (mkSim t (garbage ++ (x42 :: x4d :: body) ++ rest) c pins)
  = if bad_data (x42 :: x4d :: body)
    then Some (2, d, mkSim (t + (Z.of_nat (length garbage) + 3) * c) rest c pins)
    else Some (0, store_fields (x42 :: x4d :: body) d,
               mkSim (t + (Z.of_nat (length garbage) + 3) * c) rest c pins).
Proof.
  intros Hg Hbody Hc Ht.
  unfold getDataInternal, read_frame.
  assert (Hl0 : length (write_at (fresh_buff junk) 0 [x00; x00]) = BUFF_SIZE).
  { rewrite write_at_length; rewrite fresh_buff_length; [reflexivity|].
    unfold BUFF_SIZE. cbn [length]. lia. }
  cbn [app].
  destruct (resync_sim_clean_garbage t c pins (body ++ rest) Hc garbage t
              (write_at (fresh_buff junk) 0 [x00; x00]) fuel Hg Hl0
              ltac:(nia))
    as (cs & o & E & Hlo & Ho0 & Ho1).
  rewrite E.
  replace (length garbage + 2 + fuel)%nat
    with (S (length garbage + 1 + fuel)) by lia.
  rewrite (payload_sim_whole t _ c pins body rest o); auto; [|nia].
  replace (t + (Z.of_nat (length garbage) + 2) * c + c)
    with (t + (Z.of_nat (length garbage) + 3) * c) by lia.
  reflexivity.
Qed.

(** A marker that comes right after a lone 0x42 is passed over: the three
    bytes 0x42 0x42 0x4D are consumed and the search goes on at [n = 0] with
    what follows them. *)
Lemma resync_sim_passes_marker_after_0x42 (startTime t c : Z)
    (pins : list (Z * bool)) (rx buff : list byte) (fuel : nat) :
  length buff = BUFF_SIZE -> 0 <= c ->
  t + 3 * c - startTime < READ_TIMEOUT ->
  exists buff3,
    length buff3 = BUFF_SIZE /\ at_ buff3 0 = x4d /\
    resync (3 + fuel) startTime buff 0
      (mkSim t (x42 :: x42 :: x4d :: rx) c pins)
    = match resync fuel startTime buff3 0 (mkSim (t + 3 * c) rx c pins) with
      | Some (r, o, cs, w') =>
          Some (r, o,
                mkCheck 1 (t + c - startTime)
                :: mkCheck 0 (t + 2 * c - startTime)
                :: mkCheck 0 (t + 3 * c - startTime) :: cs, w')
      | None => None
      end.
Proof.
  intros Hlen Hc Ht.
  set (b1 := write_at (write_at buff 0 [x42]) 1 [x00]).
  set (b2 := write_at b1 1 [x42]).
  set (b3 := write_at b2 0 [x4d]).
  assert (Hl0 : length (write_at buff 0 [x42]) = BUFF_SIZE)
    by (rewrite write_at_length; rewrite ?Hlen; unfold BUFF_SIZE;
        cbn [length]; lia).
  assert (Hl1 : length b1 = BUFF_SIZE)
    by (unfold b1; rewrite write_at_length; rewrite ?Hl0; unfold BUFF_SIZE;
        cbn [length]; lia).
  assert (Hl2 : length b2 = BUFF_SIZE)
    by (unfold b2; rewrite write_at_length; rewrite ?Hl1; unfold BUFF_SIZE;
        cbn [length]; lia).
  assert (Hl3 : length b3 = BUFF_SIZE)
    by (unfold b3; rewrite write_at_length; rewrite ?Hl2; unfold BUFF_SIZE;
        cbn [length]; lia).
  assert (H10 : at_ b1 0 = x42).
  { unfold b1. rewrite at_write_at_below by (rewrite Hl0; unfold BUFF_SIZE; lia).
    apply at_write_one. rewrite Hlen. unfold BUFF_SIZE. lia. }
  exists b3. split; [exact Hl3|]. split.
  { apply at_write_one. rewrite Hl2. unfold BUFF_SIZE. lia. }
  cbn [Nat.add].
  rewrite resync_sim_first; [|lia|exact Hlen]. fold b1.
  rewrite resync_sim_mismatch; [|lia|exact Hl1|exact H10|discriminate]. fold b2.
  rewrite resync_sim_garbage; [|lia|exact Hl2|discriminate]. fold b3.
  replace (t + c + c + c) with (t + 3 * c) by lia.
  replace (t + c + c) with (t + 2 * c) by lia.
  destruct (resync fuel startTime b3 0 (mkSim (t + 3 * c) rx c pins))
    as [[[[r o] cs] w']|]; reflexivity.
Qed.

(** With no 0x42 left to come, the search from [n = 0] cannot succeed. *)
Lemma resync_sim_no_0x42 (startTime c : Z) (pins : list (Z * bool))
    (fuel : nat) :
  forall rx t buff r o cs w',
    Forall (fun b => b <> x42) rx ->
    length buff = BUFF_SIZE -> at_ buff 0 <> x42 ->
    resync fuel startTime buff 0 (mkSim t rx c pins) = Some (r, o, cs, w') ->
    r = false.
Proof.
  induction fuel as [|fuel IH]; intros rx t buff r o cs w' Hrx Hlen Hb0 E;
    [discriminate|].
  cbn [resync] in E.
  destruct rx as [|b rx].
  - change (readBytes (mkSim t [] c pins) 1)
      with (@nil byte, mkSim (t + c) [] c pins) in E.
    cbn [length] in E. rewrite write_at_nil in E.
    unfold on_read in E. cbn [Nat.ltb Nat.leb] in E. cbv beta iota zeta in E.
    destruct (READ_TIMEOUT <=? millis (mkSim (t + c) [] c pins) - startTime);
      [injection E as <- _ _ _; reflexivity|].
    rewrite (byte_eqb_neq _ _ Hb0) in E. cbn [negb orb] in E.
    destruct (resync fuel startTime buff 0
                (yield (mkSim (t + c) [] c pins)))
      as [[[[r' o'] cs'] w'']|] eqn:Er; [|discriminate].
    injection E as <- _ _ _.
    apply (IH _ _ _ _ _ _ _ Hrx Hlen Hb0 Er).
  - inversion Hrx as [|? ? Hb Hrx']; subst.
    rewrite sim_read_one in E. cbn [length] in E.
    assert (H0 : at_ (write_at buff 0 [b]) 0 = b)
      by (apply at_write_one; rewrite Hlen; unfold BUFF_SIZE; lia).
    assert (Hl0 : length (write_at buff 0 [b]) = BUFF_SIZE)
      by (rewrite write_at_length; rewrite ?Hlen; unfold BUFF_SIZE;
          cbn [length]; lia).
    unfold on_read in E. rewrite H0, (byte_eqb_neq _ _ Hb) in E.
    cbn [Nat.ltb Nat.leb Nat.eqb andb] in E. cbv beta iota zeta in E.
    destruct (READ_TIMEOUT <=? millis (mkSim (t + c) rx c pins) - startTime);
      [injection E as <- _ _ _; reflexivity|].
    rewrite H0, (byte_eqb_neq _ _ Hb) in E. cbn [negb orb] in E.
    destruct (resync fuel startTime (write_at buff 0 [b]) 0
                (yield (mkSim (t + c) rx c pins)))
      as [[[[r' o'] cs'] w'']|] eqn:Er; [|discriminate].
    injection E as <- _ _ _.
    apply (IH _ _ _ _ _ _ _ Hrx' Hl0 ltac:(congruence) Er).
Qed.

(** A frame right after a lone 0x42 is missed.  Whatever the 30 bytes after
    its marker, as long as none is 0x42, and with nothing after the frame,
    the attempt returns 1: the frame, valid or not, is never looked at. *)
Lemma getDataInternal_sim_misses_frame_after_0x42 (junk body : list byte)
    (t c : Z) (pins : list (Z * bool)) (d : PMS5003) (fuel : nat) :
  Forall (fun b => b <> x42) body ->
  1 <= c -> 3 * c < READ_TIMEOUT -> (803 <= fuel)%nat ->
  exists w',
    getDataInternal junk fuel t d
      (mkSim t (x42 :: (x42 :: x4d :: body)) c pins)
    = Some (1, d, w').
Proof.
  intros Hbody Hc Ht Hf.
  assert (Hf3 : (800 <= fuel - 3)%nat) by lia.
  replace fuel with (3 + (fuel - 3))%nat by lia.
  generalize dependent (fuel - 3)%nat. clear fuel Hf. intros fuel Hf.
  unfold getDataInternal, read_frame.
  assert (Hl0 : length (write_at (fresh_buff junk) 0 [x00; x00]) = BUFF_SIZE).
  { rewrite write_at_length; rewrite fresh_buff_length; [reflexivity|].
    unfold BUFF_SIZE. cbn [length]. lia. }
  destruct (resync_sim_passes_marker_after_0x42 t t c pins body
              (write_at (fresh_buff junk) 0 [x00; x00]) fuel
              Hl0 ltac:(lia) ltac:(lia))
    as (buff3 & Hl3 & H30 & E).
  rewrite E.
  destruct (resync_terminates (t + READ_TIMEOUT) 0 sim_ticks (sim_ticking _)
              t fuel buff3 0 (mkSim (t + 3 * c) body c pins))
    as (r & o & cs & w' & Er & _ & _).
  { unfold sim_ticks. simpl. exact Hc. }
  { lia. }
  { lia. }
  { change (millis (mkSim (t + 3 * c) body c pins)) with (t + 3 * c).
    unfold READ_TIMEOUT. lia. }
  rewrite Er.
  assert (Hr : r = false).
  { apply (resync_sim_no_0x42 _ _ _ _ _ _ _ _ _ _ _ Hbody Hl3
             ltac:(rewrite H30; discriminate) Er). }
  subst r. exists w'. reflexivity.
Qed.

(** * The driver at work

    Runs of the driver on the platform [Sim].  The driver [awake_driver] was
    woken at time 0; reads take 1 ms each. *)

(** ** Resynchronisation *)

(** C1.  A lone 0x42 before a valid frame makes the reader miss the frame.
    The reader keeps the first 0x42 as byte 0, reads the 0x42 of the frame as
    byte 1, finds it different from 0x4D and sets [n] back to 0 without
    looking at it again; the 0x4D of the frame is then read as byte 0, and
    the marker is never found: the attempt times out, and [getData] reports
    no data with the fields unchanged.  The same frame alone, or after a
    byte other than 0x42, is read. *)
Theorem resync_misses_frame_after_lone_0x42 :
  getDataInternal stack_junk 1000 40000 awake_driver
    (world_at 40000 (x42 :: frame_1_12))
  = Some (1, awake_driver, mkSim 40800 [] 1 []) /\
  getData stack_junk 1000 awake_driver (world_at 40000 (x42 :: frame_1_12))
  = Some (0, awake_driver, mkSim 40800 [] 1 []) /\
  getDataInternal stack_junk 1000 40000 awake_driver
    (world_at 40000 frame_1_12)
  = Some (0, store_fields frame_1_12 awake_driver, mkSim 40003 [] 1 []) /\
  getDataInternal stack_junk 1000 40000 awake_driver
    (world_at 40000 (x41 :: frame_1_12))
  = Some (0, store_fields frame_1_12 awake_driver, mkSim 40004 [] 1 []) /\
  checksum_ok frame_1_12 /\ length_ok frame_1_12.
Proof.
  repeat split; vm_compute; reflexivity.
Qed.

(** ** Preheat *)

(** C4.  In the last second of the preheat, here 29 500 ms after wake,
    [getData] returns 0, the value that stands for an error, and not a
    negative number; one second earlier it returns -1.  Nothing is read. *)
Theorem getData_returns_0_in_last_preheat_second :
  _uart awake_driver = true /\ _isSleeping awake_driver = false /\
  millis (world_at 29500 frame_1_12) - _wakeUpTime awake_driver <= PREHEAT_TIME /\
  getData stack_junk 1000 awake_driver (world_at 29500 frame_1_12)
  = Some (0, awake_driver, world_at 29500 frame_1_12) /\
  getData stack_junk 1000 awake_driver (world_at 29000 frame_1_12)
  = Some (-1, awake_driver, world_at 29000 frame_1_12).
Proof.
  repeat split; vm_compute; congruence.
Qed.

(** ** Sleep *)

(** C8.  [Sleep] on a driver with a sleep pin and two frames waiting in the
    transport: the line is driven low, the flags are set and true is
    returned, but the two frames are still waiting afterwards and the clock
    has not moved: none of the two calls of [getData] read anything. *)
Theorem Sleep_reads_nothing :
  0 <= _sleepPin pin_driver /\
  Sleep stack_junk 1000 pin_driver (world_at 40000 (frame_1_12 ++ frame_1_12))
  = Some (true,
          set_isSleeping (set_isReady pin_driver false) true,
          mkSim 40000 (frame_1_12 ++ frame_1_12) 1 [(5, false)]).
Proof.
  split; [vm_compute; congruence|]. vm_compute. reflexivity.
Qed.

(** ** The theorems on runs of the driver *)

(** Two frames with a wrong checksum, then a valid one: three attempts, the
    third one succeeds. *)
Lemma getData_retry_policy_witness :
  warmed_up awake_driver
    (world_at 40000 (frame_bad_crc ++ frame_bad_crc ++ frame_1_12)) /\
  getData stack_junk 1000 awake_driver
    (world_at 40000 (frame_bad_crc ++ frame_bad_crc ++ frame_1_12))
  = Some (1, store_fields frame_1_12 awake_driver, mkSim 40009 [] 1 []) /\
  exists rcs,
    attempts stack_junk 1000 40000 awake_driver
      (world_at 40000 (frame_bad_crc ++ frame_bad_crc ++ frame_1_12))
      rcs (store_fields frame_1_12 awake_driver) (mkSim 40009 [] 1 []) /\
    (1 <= length rcs <= 3)%nat /\
    ((last rcs 0 = 0 /\ 1 = 1) \/
     (last rcs 0 = 1 /\ 1 = 0) \/
     (last rcs 0 = 2 /\ length rcs = 3%nat /\ 1 = 0)).
Proof.
  assert (Hw : warmed_up awake_driver
            (world_at 40000 (frame_bad_crc ++ frame_bad_crc ++ frame_1_12))).
  { unfold warmed_up. repeat split. }
  split; [exact Hw|]. split; [vm_compute; reflexivity|].
  apply (proj1 (getData_retry_policy stack_junk 1000 awake_driver
                  (world_at 40000 (frame_bad_crc ++ frame_bad_crc ++ frame_1_12))
                  1 (store_fields frame_1_12 awake_driver)
                  (mkSim 40009 [] 1 []) Hw)).
  vm_compute. reflexivity.
Defined.

(** An attempt on a frame with a wrong checksum returns 2 after three tests
    of the timeout. *)
Lemma getDataInternal_timeout_vs_corrupt_witness :
  exists o cs cs0 c,
    read_frame stack_junk 1000 40000 (world_at 40000 frame_bad_crc)
    = Some (o, cs, mkSim 40003 [] 1 []) /\
    cs = cs0 ++ [c] /\
    (2 = 0 \/ 2 = 1 \/ 2 = 2) /\
    (2 = 1 ->
       o = None /\
       800 <= elapsed c /\
       elapsed c = millis (mkSim 40003 [] 1 []) - 40000 /\
       Forall (fun k => elapsed k < 800 -> (seen k < 32)%nat) cs) /\
    (2 = 2 ->
       exists buff,
         o = Some buff /\ length buff = 32%nat /\
         seen c = 32%nat /\ elapsed c < 800 /\
         ~ (checksum_ok buff /\ length_ok buff)).
Proof.
  apply (getDataInternal_timeout_vs_corrupt stack_junk 1000 40000 awake_driver
           (world_at 40000 frame_bad_crc) 2 awake_driver (mkSim 40003 [] 1 [])).
  vm_compute. reflexivity.
Defined.

(** An attempt on a valid frame. *)
Lemma getDataInternal_success_iff_checks_witness :
  length frame_1_12 = 32%nat /\
  (getDataInternal stack_junk 1000 40000 awake_driver
     (world_at 40000 frame_1_12)
   = Some (0, store_fields frame_1_12 awake_driver, mkSim 40003 [] 1 [])
   <-> checksum_ok frame_1_12 /\ length_ok frame_1_12) /\
  (getDataInternal stack_junk 1000 40000 awake_driver
     (world_at 40000 frame_1_12)
   = Some (2, awake_driver, mkSim 40003 [] 1 [])
   <-> ~ (checksum_ok frame_1_12 /\ length_ok frame_1_12)) /\
  (getDataInternal stack_junk 1000 40000 awake_driver
     (world_at 40000 frame_1_12)
   = Some (0, store_fields frame_1_12 awake_driver, mkSim 40003 [] 1 [])
   \/ getDataInternal stack_junk 1000 40000 awake_driver
        (world_at 40000 frame_1_12)
      = Some (2, awake_driver, mkSim 40003 [] 1 [])) /\
  (exists cs0 c,
     [mkCheck 1 1; mkCheck 1 2; mkCheck 32 3] = cs0 ++ [c] /\
     seen c = 32%nat /\ elapsed c < 800 /\
     Forall (fun k => (seen k < 32)%nat) cs0).
Proof.
  apply (getDataInternal_success_iff_checks stack_junk 1000 40000 awake_driver
           (world_at 40000 frame_1_12) frame_1_12
           [mkCheck 1 1; mkCheck 1 2; mkCheck 32 3] (mkSim 40003 [] 1 [])).
  vm_compute. reflexivity.
Defined.

(** A frame with a wrong checksum, then a valid one: the first frame read
    returns 2 and changes nothing, the second one stores the fields of the
    valid frame. *)
Lemma getData_failure_keeps_measurement_witness :
  (1 <> 1 ->
   store_fields frame_1_12 awake_driver = awake_driver /\
   measurement (store_fields frame_1_12 awake_driver)
   = measurement awake_driver) /\
  (store_fields frame_1_12 awake_driver = awake_driver \/
   (1 = 1 /\
    exists startTime w0 buff cs,
      ((startTime = millis (world_at 40000 (frame_bad_crc ++ frame_1_12)) /\
        w0 = world_at 40000 (frame_bad_crc ++ frame_1_12)) \/
       (exists rcs,
          attempts stack_junk 1000
            (millis (world_at 40000 (frame_bad_crc ++ frame_1_12)))
            awake_driver (world_at 40000 (frame_bad_crc ++ frame_1_12))
            rcs awake_driver w0 /\
          last rcs 0 = 2 /\ (length rcs <= 2)%nat /\
          startTime = millis w0)) /\
      read_frame stack_junk 1000 startTime w0
      = Some (Some buff, cs, mkSim 40006 [] 1 []) /\
      checksum_ok buff /\ length_ok buff /\
      store_fields frame_1_12 awake_driver = store_fields buff awake_driver /\
      measurement (store_fields frame_1_12 awake_driver)
      = map (be16_at (payload_bytes buff)) field_offsets)).
Proof.
  apply (getData_failure_keeps_measurement stack_junk 1000 awake_driver
           (world_at 40000 (frame_bad_crc ++ frame_1_12))
           1 (store_fields frame_1_12 awake_driver) (mkSim 40006 [] 1 [])).
  vm_compute. reflexivity.
Defined.

(** The fields of [frame_1_12] are 1, 2, ..., 12. *)
Lemma getDataInternal_decodes_fields_witness :
  exists buff cs,
    read_frame stack_junk 1000 40000 (world_at 40000 frame_1_12)
    = Some (Some buff, cs, mkSim 40003 [] 1 []) /\
    store_fields frame_1_12 awake_driver = store_fields buff awake_driver /\
    measurement (store_fields frame_1_12 awake_driver)
    = map (be16_at (payload_bytes buff)) field_offsets /\
    field_offsets = [0; 2; 4; 6; 8; 10; 12; 14; 16; 18; 20; 22]%nat /\
    Forall (fun v => 0 <= v < 65536)
      (measurement (store_fields frame_1_12 awake_driver)) /\
    (forall other, firstn 28 other = firstn 28 buff ->
       measurement (store_fields other awake_driver)
       = measurement (store_fields frame_1_12 awake_driver)).
Proof.
  apply (getDataInternal_decodes_fields stack_junk 1000 40000 awake_driver
           (world_at 40000 frame_1_12) (store_fields frame_1_12 awake_driver)
           (mkSim 40003 [] 1 [])).
  vm_compute. reflexivity.
Defined.

(** One millisecond after the preheat [isReady] returns true. *)
Lemma isReady_iff_preheat_elapsed_witness :
  (fst (isReady awake_driver (world_at 30001 [])) = true
   <-> 30000 < millis (world_at 30001 []) - _wakeUpTime awake_driver) /\
  _isReady (snd (isReady awake_driver (world_at 30001 [])))
  = fst (isReady awake_driver (world_at 30001 [])) /\
  (_isReady awake_driver = false ->
   fst (isReady awake_driver (world_at 30001 []))
   = (30000 <? millis (world_at 30001 []) - _wakeUpTime awake_driver)).
Proof.
  apply (isReady_iff_preheat_elapsed awake_driver (world_at 30001 [])).
  - reflexivity.
  - reflexivity.
  - unfold coherent. simpl. discriminate.
Defined.

(** ** Counterexamples *)

(** C7 as stated fails.  The frame [frame_1_12] passes both checks and is
    decoded, but its twelve fields are not the words at the offsets 0, 2, 4,
    ..., 26 of the payload: those are fourteen words, of which the last two,
    at the offsets 24 and 26 (bytes 28 to 31 of the frame, the reserved word
    and the checksum), are stored in no field.  The last field, [nc10um],
    holds the word at offset 22, not the one at offset 26.  Counting the
    payload from the length field on does not help either. *)
Lemma decode_not_at_offsets_up_to_26 :
  even_offsets_to_26 = [0; 2; 4; 6; 8; 10; 12; 14; 16; 18; 20; 22; 24; 26]%nat /\
  getDataInternal stack_junk 1000 40000 awake_driver
    (world_at 40000 frame_1_12)
  = Some (0, store_fields frame_1_12 awake_driver, mkSim 40003 [] 1 []) /\
  measurement (store_fields frame_1_12 awake_driver)
  <> map (be16_at (payload_bytes frame_1_12)) even_offsets_to_26 /\
  nc10um (store_fields frame_1_12 awake_driver) = 12 /\
  be16_at (payload_bytes frame_1_12) 22 = 12 /\
  be16_at (payload_bytes frame_1_12) 26 = 249 /\
  ~ In (be16_at (payload_bytes frame_1_12) 26)
       (measurement (store_fields frame_1_12 awake_driver)) /\
  measurement (store_fields frame_1_12 awake_driver)
  <> map (be16_at (skipn 2 frame_1_12)) even_offsets_to_26.
Proof.
  repeat split; try (vm_compute; reflexivity); vm_compute.
  - discriminate.
  - intros Hin. repeat (destruct Hin as [Hin|Hin]; [discriminate|]). exact Hin.
  - discriminate.
Qed.

(** C5 as stated fails.  The valid frame [frame_1_12] arrives whole, but
    each read takes 300 ms: the marker is found after 600 ms, and the read
    that brings the 30 bytes after it ends 900 ms after the start.  The
    array then holds the complete frame, which passes both checks, but the
    test of the timeout that follows the read (line 169) comes first: the
    attempt returns 1 (timed out), neither success nor corrupt, the frame is
    not validated and [getData] returns 0 with the fields unchanged. *)
Lemma complete_valid_frame_is_timed_out :
  length frame_1_12 = 32%nat /\
  checksum_ok frame_1_12 /\ length_ok frame_1_12 /\
  resync 1000 40000 (write_at (fresh_buff stack_junk) 0 [x00; x00]) 0
    (mkSim 40000 frame_1_12 300 [])
  = Some (true, x42 :: x4d :: repeat xff 30,
          [mkCheck 1 300; mkCheck 1 600],
          mkSim 40600 (skipn 2 frame_1_12) 300 []) /\
  payload 1000 40000 (x42 :: x4d :: repeat xff 30) 2
    (mkSim 40600 (skipn 2 frame_1_12) 300 [])
  = Some (false, frame_1_12, [mkCheck 32 900], mkSim 40900 [] 300 []) /\
  read_frame stack_junk 1000 40000 (mkSim 40000 frame_1_12 300 [])
  = Some (None, [mkCheck 1 300; mkCheck 1 600; mkCheck 32 900],
          mkSim 40900 [] 300 []) /\
  getDataInternal stack_junk 1000 40000 awake_driver
    (mkSim 40000 frame_1_12 300 [])
  = Some (1, awake_driver, mkSim 40900 [] 300 []) /\
  getData stack_junk 1000 awake_driver (mkSim 40000 frame_1_12 300 [])
  = Some (0, awake_driver, mkSim 40900 [] 300 []).
Proof.
  repeat split; vm_compute; reflexivity.
Qed.

(** C9 as stated fails.  Exactly 30 000 ms after wake the preheat duration
    has elapsed, and [isReady] on an awake driver with a transport still
    returns false. *)
Lemma isReady_false_when_exactly_preheat_elapsed :
  _isSleeping awake_driver = false /\ _uart awake_driver = true /\
  millis (world_at 30000 []) - _wakeUpTime awake_driver = PREHEAT_TIME /\
  fst (isReady awake_driver (world_at 30000 [])) = false /\
  ~ (fst (isReady awake_driver (world_at 30000 [])) = true
     <-> PREHEAT_TIME <= millis (world_at 30000 []) - _wakeUpTime awake_driver).
Proof.
  repeat split; try (vm_compute; reflexivity).
  intros [_ Hr].
  assert (Hf : fst (isReady awake_driver (world_at 30000 [])) = true).
  { apply Hr. vm_compute. discriminate. }
  vm_compute in Hf. discriminate.
Qed.

(** * Further properties of the driver *)

(** ** From construction to the first reading *)

Section Lifecycle.

Context {W : Type} `{Platform W}.
Variable junk : list byte.

(** At the moment of its wake-up an awake driver is 30 seconds from ready. *)
Lemma getData_at_wake (fuel : nat) (d : PMS5003) (w : W) :
  _uart d = true -> _isSleeping d = false -> _wakeUpTime d = millis w ->
  getData junk fuel d w = Some (-30, d, w).
Proof.
  intros Hu Hs Hw.
  rewrite getData_preheat by (auto; rewrite Hw; unfold PREHEAT_TIME; lia).
  rewrite Hw, Z.sub_diag. reflexivity.
Qed.

Lemma isReady_at_wake (d : PMS5003) (w : W) :
  _isSleeping d = false -> _isReady d = false -> _wakeUpTime d = millis w ->
  isReady d w = (false, d).
Proof.
  intros Hs Hr Hw. unfold isReady. rewrite Hs, Hr, Hw, Z.sub_diag.
  cbn [negb]. rewrite andb_false_r. rewrite Hr. reflexivity.
Qed.

Lemma getData_asleep (fuel : nat) (d : PMS5003) (w : W) :
  _isSleeping d = true -> getData junk fuel d w = Some (0, d, w).
Proof.
  intros Hs. unfold getData. rewrite Hs, orb_true_r. reflexivity.
Qed.

Lemma isReady_asleep (d : PMS5003) (w : W) :
  _isSleeping d = true -> isReady d w = (false, d).
Proof. intros Hs. unfold isReady. rewrite Hs. reflexivity. Qed.

(** X1.  A driver constructed on a hardware UART without a sleep pin, or
    with [sleep = false], is awake with its transport set, its readiness flag
    clear and its preheat starting at the time of construction: at that
    moment [isReady] returns false and [getData] returns -30, the 30 seconds
    left, and neither changes anything.  The data fields are what the memory
    held. *)
Theorem constructed_awake_starts_preheat (sleepPin : Z) (sleep : bool)
    (raw : PMS5003) (w : W) (fuel : nat) :
  sleepPin < 0 \/ sleep = false ->
  let d1 := fst (PMS5003_HardwareSerial sleepPin sleep raw w) in
  let w1 := snd (PMS5003_HardwareSerial sleepPin sleep raw w) in
  _uart d1 = true /\ _isSleeping d1 = false /\ _isReady d1 = false /\
  _sleepPin d1 = sleepPin /\ _wakeUpTime d1 = millis w1 /\
  measurement d1 = measurement raw /\
  isReady d1 w1 = (false, d1) /\
  getData junk fuel d1 w1 = Some (-30, d1, w1).
Proof.
  intros Hc. cbv zeta.
  assert (Hbase :
    _uart (fst (PMS5003_HardwareSerial sleepPin sleep raw w)) = true /\
    _isSleeping (fst (PMS5003_HardwareSerial sleepPin sleep raw w)) = false /\
    _isReady (fst (PMS5003_HardwareSerial sleepPin sleep raw w)) = false /\
    _sleepPin (fst (PMS5003_HardwareSerial sleepPin sleep raw w)) = sleepPin /\
    _wakeUpTime (fst (PMS5003_HardwareSerial sleepPin sleep raw w))
    = millis (snd (PMS5003_HardwareSerial sleepPin sleep raw w)) /\
    measurement (fst (PMS5003_HardwareSerial sleepPin sleep raw w))
    = measurement raw).
  { unfold PMS5003_HardwareSerial, init. cbn [_sleepPin set_sleepPin].
    destruct (Z.leb_spec 0 sleepPin) as [Hp|Hp].
    - destruct sleep; [destruct Hc as [Hc|Hc]; [lia|discriminate]|].
      cbn. repeat split.
    - cbn. repeat split. }
  destruct Hbase as (Hu & Hs & Hr & Hp & Hw & Hm).
  repeat split; auto.
  - apply isReady_at_wake; assumption.
  - apply getData_at_wake; assumption.
Qed.

(** X2.  A driver constructed with a sleep pin and [sleep = true] starts
    asleep: the pin is made an output and driven low, and at any later time
    [getData] returns 0 and [isReady] false without changing anything.
    [WakeUp] then drives the pin high, returns true and starts the preheat at
    the time of its call, where [getData] returns -30. *)
Theorem constructed_asleep_until_WakeUp (sleepPin : Z) (raw : PMS5003)
    (w w' : W) (fuel : nat) :
  0 <= sleepPin ->
  let d1 := fst (PMS5003_HardwareSerial sleepPin true raw w) in
  let w1 := snd (PMS5003_HardwareSerial sleepPin true raw w) in
  w1 = digitalWrite (pinModeOutput w sleepPin) sleepPin false /\
  isSleeping d1 = true /\
  getData junk fuel d1 w' = Some (0, d1, w') /\
  isReady d1 w' = (false, d1) /\
  let d2 := snd (fst (WakeUp d1 w')) in
  let w2 := snd (WakeUp d1 w') in
  fst (fst (WakeUp d1 w')) = true /\
  w2 = digitalWrite w' sleepPin true /\
  isSleeping d2 = false /\
  isReady d2 w2 = (false, d2) /\
  getData junk fuel d2 w2 = Some (-30, d2, w2).
Proof.
  intros Hp. cbv zeta.
  unfold PMS5003_HardwareSerial, init. cbn [_sleepPin set_sleepPin].
  destruct (Z.leb_spec 0 sleepPin) as [Hp'|Hp']; [|lia].
  cbn [fst snd].
  set (d1 := set_isSleeping
               (set_sleepPin (set_isReady (set_uart raw true) false) sleepPin)
               true).
  assert (Hs1 : _isSleeping d1 = true) by reflexivity.
  assert (Hp1 : _sleepPin d1 = sleepPin) by reflexivity.
  split; [reflexivity|]. split; [exact Hs1|].
  split; [apply getData_asleep; exact Hs1|].
  split; [apply isReady_asleep; exact Hs1|].
  unfold WakeUp. rewrite Hp1, Hs1.
  destruct (Z.leb_spec 0 sleepPin) as [_|Hp'']; [|lia].
  cbn [fst snd].
  split; [reflexivity|]. split; [reflexivity|]. split; [reflexivity|].
  split.
  - apply isReady_at_wake; reflexivity.
  - apply getData_at_wake; reflexivity.
Qed.

(** X3.  When [new] fails in the constructor for a software UART, the driver
    has no transport: whatever the time, and whatever it was constructed
    with, [getData] returns 0 and [isReady] false, and neither changes the
    object or the world. *)
Theorem constructed_without_transport (begin : W -> W) (sleepPin : Z)
    (sleep : bool) (raw : PMS5003) (w w' : W) (fuel : nat) :
  let d1 := fst (PMS5003_SoftwareSerial begin false sleepPin sleep raw w) in
  _uart d1 = false /\
  snd (PMS5003_SoftwareSerial begin false sleepPin sleep raw w)
  = snd (init sleepPin sleep raw w) /\
  getData junk fuel d1 w' = Some (0, d1, w') /\
  isReady d1 w' = (false, d1).
Proof.
  cbv zeta. unfold PMS5003_SoftwareSerial.
  assert (Hu : _uart (fst (init sleepPin sleep (set_uart raw false) w)) = false
               /\ _isReady (fst (init sleepPin sleep (set_uart raw false) w))
                  = false).
  { unfold init. cbn [_sleepPin set_sleepPin].
    destruct (0 <=? sleepPin); [destruct sleep|]; split; reflexivity. }
  destruct Hu as [Hu Hr].
  split; [exact Hu|]. split.
  - unfold init. cbn [_sleepPin set_sleepPin].
    destruct (0 <=? sleepPin); [destruct sleep|]; reflexivity.
  - split.
    + unfold getData. rewrite Hu. reflexivity.
    + unfold isReady. rewrite Hr, Hu.
      destruct (_isSleeping (fst (init sleepPin sleep (set_uart raw false) w)));
        [reflexivity|].
      cbn [negb andb]. rewrite Hr. reflexivity.
Qed.

End Lifecycle.

(** ** Sleeping and waking *)

Section SleepWake.

Context {W : Type} `{Platform W}.
Variable junk : list byte.

Lemma set_flags_asleep (d : PMS5003) :
  _isSleeping d = true -> _isReady d = false ->
  set_isSleeping (set_isReady d false) true = d.
Proof. destruct d. cbn. intros -> ->. reflexivity. Qed.

(** X4.  Without a sleep pin the driver cannot sleep.  [init] leaves it awake
    even when asked to start asleep, and from then on [Sleep] returns false
    and [WakeUp] returns true, at any time, neither changing the object or
    the world. *)
Theorem no_pin_never_sleeps (sleepPin : Z) (sleep : bool) (d : PMS5003)
    (w w' : W) (fuel : nat) :
  sleepPin < 0 ->
  let d1 := fst (init sleepPin sleep d w) in
  snd (init sleepPin sleep d w) = w /\
  isSleeping d1 = false /\
  Sleep junk fuel d1 w' = Some (false, d1, w') /\
  WakeUp d1 w' = (true, d1, w').
Proof.
  intros Hp. cbv zeta. unfold init. cbn [_sleepPin set_sleepPin].
  destruct (Z.leb_spec 0 sleepPin) as [Hp'|_]; [lia|]. cbn [fst snd].
  split; [reflexivity|]. split; [reflexivity|].
  split.
  - rewrite Sleep_without_pin by (cbn; exact Hp). reflexivity.
  - unfold WakeUp. cbn [_sleepPin set_wakeUpTime set_isSleeping set_sleepPin].
    destruct (Z.leb_spec 0 sleepPin) as [Hp'|_]; [lia|]. reflexivity.
Qed.

(** X5.  [Sleep] and [WakeUp] can be repeated.  A second [WakeUp], at any
    time, returns what the first returned and changes neither the object nor
    the world: the wake-up time is not moved and the preheat is not started
    again.  A second [Sleep] returns what the first returned and leaves the
    object as the first left it. *)
Theorem Sleep_WakeUp_idempotent (fuel : nat) (d : PMS5003) (w w' : W) :
  WakeUp (snd (fst (WakeUp d w))) w'
  = (fst (fst (WakeUp d w)), snd (fst (WakeUp d w)), w') /\
  exists r d1 w1 w2,
    Sleep junk fuel d w = Some (r, d1, w1) /\
    Sleep junk fuel d1 w' = Some (r, d1, w2).
Proof.
  split.
  - unfold WakeUp.
    destruct (0 <=? _sleepPin d) eqn:Ep; destruct (_isSleeping d) eqn:Es;
      cbn [fst snd _sleepPin _isSleeping set_wakeUpTime set_isSleeping];
      rewrite ?Ep, ?Es; reflexivity.
  - destruct (Z.le_gt_cases 0 (_sleepPin d)) as [Hp|Hp].
    + rewrite Sleep_with_pin by exact Hp.
      do 4 eexists. split; [reflexivity|].
      rewrite Sleep_with_pin by (cbn; exact Hp).
      rewrite set_flags_asleep by reflexivity. reflexivity.
    + rewrite Sleep_without_pin by lia.
      do 4 eexists. split; [reflexivity|].
      rewrite Sleep_without_pin by lia. reflexivity.
Qed.

(** X6.  Sleeping and waking again starts the preheat anew.  After [Sleep]
    on a driver with a sleep pin and a transport, a [WakeUp] at any later
    time returns true, drives the pin high and takes the time of its call as
    the wake-up time: at that moment [isReady] returns false and [getData]
    returns -30, whatever readiness was reached before the sleep, and from
    then on [isReady] is true exactly when more than 30 000 ms have passed
    since that call. *)
Theorem Sleep_then_WakeUp_restarts_preheat (fuel : nat) (d : PMS5003)
    (w w' w'' : W) (r : bool) (d1 : PMS5003) (w1 : W) :
  0 <= _sleepPin d -> _uart d = true ->
  Sleep junk fuel d w = Some (r, d1, w1) ->
  let d2 := snd (fst (WakeUp d1 w')) in
  let w2 := snd (WakeUp d1 w') in
  r = true /\ isSleeping d1 = true /\
  fst (fst (WakeUp d1 w')) = true /\
  w2 = digitalWrite w' (_sleepPin d) true /\
  isSleeping d2 = false /\ _wakeUpTime d2 = millis w2 /\
  isReady d2 w2 = (false, d2) /\
  getData junk fuel d2 w2 = Some (-30, d2, w2) /\
  fst (isReady d2 w'') = (30000 <? millis w'' - millis w2).
Proof.
  intros Hp Hu E. cbv zeta.
  rewrite Sleep_with_pin in E by exact Hp.
  injection E as <- <- <-.
  set (d1 := set_isSleeping (set_isReady d false) true).
  assert (Hs1 : _isSleeping d1 = true) by reflexivity.
  assert (Hp1 : _sleepPin d1 = _sleepPin d) by reflexivity.
  split; [reflexivity|]. split; [exact Hs1|].
  unfold WakeUp. rewrite Hp1, Hs1.
  destruct (Z.leb_spec 0 (_sleepPin d)) as [_|Hp']; [|lia].
  cbn [fst snd].
  split; [reflexivity|]. split; [reflexivity|]. split; [reflexivity|].
  split; [reflexivity|].
  split; [apply isReady_at_wake; reflexivity|].
  split; [apply getData_at_wake; auto|].
  unfold isReady. cbn -[Z.sub Z.ltb millis digitalWrite].
  rewrite Hu. cbn [andb]. unfold PREHEAT_TIME.
  destruct (30000 <? millis w'' - millis (digitalWrite w' (_sleepPin d) true));
    reflexivity.
Qed.

End SleepWake.

(** ** Readiness *)

Section Readiness.

Context {W : Type} `{Platform W}.
Variable junk : list byte.

(** X7.  Readiness is latched.  Once [isReady] has returned true, it returns
    true at every later query, whatever the clock then shows, and leaves the
    object as it is; calls of [getData] and of [WakeUp] in between do not
    change this.  (Only [Sleep] clears the flag.) *)
Theorem isReady_latched (d : PMS5003) (w : W) :
  fst (isReady d w) = true ->
  let d1 := snd (isReady d w) in
  (forall w', isReady d1 w' = (true, d1)) /\
  (forall w1 w', isReady (snd (fst (WakeUp d1 w1))) w' = (true, d1)) /\
  (forall fuel w1 v d2 w2 w',
     getData junk fuel d1 w1 = Some (v, d2, w2) ->
     isReady d2 w' = (true, d2)).
Proof.
  intros Ht. cbv zeta.
  assert (Hd1 : _isSleeping (snd (isReady d w)) = false /\
                _isReady (snd (isReady d w)) = true).
  { unfold isReady in *.
    destruct (_isSleeping d) eqn:Es; [discriminate|].
    cbn [fst snd] in *. split; [|exact Ht].
    destruct (negb (_isReady d)); [|exact Es].
    destruct (_uart d && (PREHEAT_TIME <? millis w - _wakeUpTime d));
      [cbn|]; exact Es. }
  destruct Hd1 as [Hs Hr].
  assert (Hlatch : forall d0 w0,
            _isSleeping d0 = false -> _isReady d0 = true ->
            isReady d0 w0 = (true, d0)).
  { intros d0 w0 Hs0 Hr0. unfold isReady. rewrite Hs0, Hr0. cbn [negb].
    rewrite Hr0. reflexivity. }
  split; [|split].
  - intros w'. apply Hlatch; assumption.
  - intros w1 w'. unfold WakeUp. rewrite Hs.
    destruct (0 <=? _sleepPin (snd (isReady d w))); cbn [fst snd];
      apply Hlatch; assumption.
  - intros fuel w1 v d2 w2 w' E.
    destruct (getData_private _ _ _ _ _ _ _ E) as (Hr2 & Hs2 & _).
    apply Hlatch; congruence.
Qed.

(** X8.  The readiness flag is never set on a sleeping driver: this holds
    after [init], whatever the object held before, and [isReady], [WakeUp],
    [Sleep] and [getData] keep it. *)
Theorem sleeping_not_ready_kept (fuel : nat) (sleepPin : Z) (sleep : bool)
    (raw d : PMS5003) (w : W) :
  sleeping_not_ready d ->
  sleeping_not_ready (fst (init sleepPin sleep raw w)) /\
  sleeping_not_ready (snd (isReady d w)) /\
  sleeping_not_ready (snd (fst (WakeUp d w))) /\
  (forall r d' w',
     Sleep junk fuel d w = Some (r, d', w') -> sleeping_not_ready d') /\
  (forall v d' w',
     getData junk fuel d w = Some (v, d', w') -> sleeping_not_ready d').
Proof.
  unfold sleeping_not_ready. intros Hd. split; [|split; [|split; [|split]]].
  - unfold init. cbn [_sleepPin set_sleepPin].
    destruct (0 <=? sleepPin); [destruct sleep|]; cbn; auto.
  - unfold isReady. destruct (_isSleeping d) eqn:Es; cbn [snd];
      [intros _; apply Hd; reflexivity|].
    destruct (negb (_isReady d)); [|rewrite Es; discriminate].
    destruct (_uart d && (PREHEAT_TIME <? millis w - _wakeUpTime d));
      cbn; rewrite Es; discriminate.
  - unfold WakeUp.
    destruct (0 <=? _sleepPin d); [|exact Hd].
    destruct (_isSleeping d) eqn:Es; cbn [fst snd]; [cbn; discriminate|].
    rewrite Es. discriminate.
  - intros r d' w' E.
    destruct (Z.le_gt_cases 0 (_sleepPin d)) as [Hp|Hp].
    + rewrite Sleep_with_pin in E by exact Hp.
      injection E as _ <- _. reflexivity.
    + rewrite Sleep_without_pin in E by lia.
      injection E as _ <- _. exact Hd.
  - intros v d' w' E.
    destruct (getData_private _ _ _ _ _ _ _ E) as (Hr & Hs & _).
    rewrite Hr, Hs. exact Hd.
Qed.

(** X9.  [getData] never touches the power state: the readiness flag (which
    only [isReady] sets), the sleeping flag, the transport, the wake-up time
    and the sleep pin are after the call what they were before it, whatever
    it returns; so [isReady] and [isSleeping] answer after the call as they
    would have answered without it. *)
Theorem getData_keeps_power_state (fuel : nat) (d : PMS5003) (w : W)
    (v : Z) (d' : PMS5003) (w' : W) :
  getData junk fuel d w = Some (v, d', w') ->
  _isReady d' = _isReady d /\ _isSleeping d' = _isSleeping d /\
  _uart d' = _uart d /\ _wakeUpTime d' = _wakeUpTime d /\
  _sleepPin d' = _sleepPin d /\
  isSleeping d' = isSleeping d /\
  (forall w'', fst (isReady d' w'') = fst (isReady d w'')).
Proof.
  intros E.
  destruct (getData_private _ _ _ _ _ _ _ E) as (Hr & Hs & Hu & Hw & Hp).
  repeat split; auto.
  intros w''. unfold isReady. rewrite Hr, Hs, Hu, Hw.
  destruct (_isSleeping d); [reflexivity|].
  destruct (_isReady d) eqn:Er; cbn [negb fst]; [congruence|].
  destruct (_uart d && (PREHEAT_TIME <? millis w'' - _wakeUpTime d));
    cbn; congruence.
Qed.

(** X10.  While at least a full second of the preheat is left, [getData]
    returns the number of whole seconds left, negated: a value from -30 to
    -1, with the object and the world as they were. *)
Theorem getData_preheat_seconds_left (fuel : nat) (d : PMS5003) (w : W) :
  _uart d = true -> _isSleeping d = false ->
  0 <= millis w - _wakeUpTime d <= 29000 ->
  exists v,
    getData junk fuel d w = Some (v, d, w) /\
    - 30 <= v <= - 1 /\
    1000 * (- v) <= 30000 - (millis w - _wakeUpTime d) < 1000 * (- v) + 1000.
Proof.
  intros Hu Hs Ht.
  exists (Z.quot (millis w - _wakeUpTime d - PREHEAT_TIME) 1000).
  split.
  - apply getData_preheat; auto. unfold PREHEAT_TIME. lia.
  - unfold PREHEAT_TIME.
    set (e := millis w - _wakeUpTime d) in *.
    replace (e - 30000) with (- (30000 - e)) by lia.
    rewrite Z.quot_opp_l by lia.
    rewrite Z.quot_div_nonneg by lia.
    pose proof (Z.div_mod (30000 - e) 1000 ltac:(lia)) as Hdm.
    pose proof (Z.mod_pos_bound (30000 - e) 1000 ltac:(lia)) as Hm.
    lia.
Qed.

End Readiness.

(** ** The frame reader *)

Section Reader.

Context {W : Type} `{Platform W}.
Variable junk : list byte.






(** X11.  However the bytes arrive, the number of bytes assembled never
    exceeds the 32 bytes of the array: it is at most 32 at every test of the
    timeout, and a buffer handed to the validation has exactly 32 bytes. *)
Theorem read_frame_stays_in_buffer (fuel : nat) (startTime : Z) (w : W)
    (o : option (list byte)) (cs : list Check) (w' : W) :
  read_frame junk fuel startTime w = Some (o, cs, w') ->
  Forall (fun c => (seen c <= 32)%nat) cs /\
  match o with Some buff => length buff = 32%nat | None => True end.
Proof.
  intros E.
  destruct (read_frame_spec _ _ _ _ _ _ _ E) as (cs0 & c & -> & Hrun & Hc).
  split.
  - apply Forall_app. split.
    + eapply Forall_impl; [|exact Hrun].
      intros k [_ Hk]. unfold BUFF_SIZE in Hk. lia.
    + constructor; [|constructor].
      destruct o as [buff|].
      * destruct Hc as (_ & _ & Hs & _). rewrite Hs. reflexivity.
      * destruct Hc as (_ & _ & Hs). exact Hs.
  - destruct o as [buff|]; [|exact I]. apply Hc.
Qed.

(** X12.  No byte of the array is used before it is written: an attempt, and
    so [getData], gives the same result whatever the array held on entry. *)
Theorem getData_ignores_uninitialised_array (junk' : list byte) (fuel : nat)
    (startTime : Z) (d : PMS5003) (w : W) :
  read_frame junk fuel startTime w = read_frame junk' fuel startTime w /\
  getDataInternal junk fuel startTime d w
  = getDataInternal junk' fuel startTime d w /\
  getData junk fuel d w = getData junk' fuel d w.
Proof.
  split; [apply read_frame_junk|]. split.
  - apply getDataInternal_junk.
  - apply getData_junk.
Qed.



Lemma resync_silent (Inv : W -> Prop) (startTime : Z) (fuel : nat) :
  silent Inv -> (forall w, millis w - startTime < READ_TIMEOUT) ->
  forall buff n w,
    Inv w -> at_ buff 0 <> x42 ->
    resync fuel startTime buff n w = None.
Proof.
  intros Hsil Hclock.
  induction fuel as [|fuel IH]; intros buff n w Hi Hb; [reflexivity|].
  cbn [resync].
  destruct (Hsil w 1%nat Hi) as [Hbs Hi2].
  destruct (readBytes w 1) as [bs w1]. cbn [fst snd] in Hbs, Hi2. subst bs.
  cbn [length]. rewrite write_at_nil.
  unfold on_read. cbn [Nat.ltb Nat.leb]. cbv beta iota zeta.
  destruct (Z.leb_spec READ_TIMEOUT (millis w1 - startTime)) as [Hto|Hto];
    [specialize (Hclock w1); lia|].
  rewrite (byte_eqb_neq _ _ Hb). cbn [negb orb].
  rewrite (IH buff n (yield w1) Hi2 Hb). reflexivity.
Qed.

(** X18.  [millis()] counts in 32 bits.  When [getData] opens its timeout
    window less than 800 ms before the counter starts again from 0, no
    reading of the clock is ever 800 ms or more past the start of the window,
    and on a transport that stays silent the resync loop never ends:
    [getData] does not return, however long it runs. *)
Theorem getData_never_returns_over_clock_wrap (Inv : W -> Prop) (fuel : nat)
    (d : PMS5003) (w : W) :
  silent Inv -> (forall w', millis w' < 4294967296) ->
  Inv w -> warmed_up d w -> 4294967296 - 800 <= millis w ->
  getData junk fuel d w = None.
Proof.
  intros Hsil Hclock Hi Hw Hlate.
  rewrite (getData_warmed_up junk fuel d w Hw).
  unfold TRIES_NUM. rewrite getData_tries_S.
  unfold getDataInternal, read_frame.
  rewrite (resync_silent Inv (millis w) fuel Hsil); [reflexivity| |exact Hi|].
  - intros w'. specialize (Hclock w'). unfold READ_TIMEOUT. lia.
  - assert (Hl : length (fresh_buff junk) = BUFF_SIZE)
      by apply fresh_buff_length.
    change 0%nat with (0 + 0)%nat at 2.
    rewrite at_write_at_in; [discriminate|lia|cbn [length]; lia].
Qed.

End Reader.

(** ** The frames that are accepted *)

Lemma b2z_inj (a b : byte) : b2z a = b2z b -> a = b.
Proof.
  unfold b2z. intros E. apply N2Z.inj in E.
  pose proof (Byte.of_to_N a) as Ha. pose proof (Byte.of_to_N b) as Hb.
  rewrite E in Ha. congruence.
Qed.

Lemma byte_sum_range (bs : list byte) :
  0 <= byte_sum bs <= 255 * Z.of_nat (length bs).
Proof.
  induction bs as [|x bs IH]; [cbn; lia|].
  rewrite byte_sum_cons. cbn [length]. rewrite Nat2Z.inj_succ.
  pose proof (b2z_range x). lia.
Qed.

Section Accepted.

Context {W : Type} `{Platform W}.
Variable junk : list byte.

Lemma payload_chunks (startTime : Z) (fuel : nat) :
  forall buff n w b cs w',
    length buff = BUFF_SIZE -> (n < BUFF_SIZE)%nat ->
    payload fuel startTime buff n w = Some (true, b, cs, w') ->
    b = firstn n buff ++ concat (chunks (length cs) n w).
Proof.
  induction fuel as [|fuel IH]; intros buff n w b cs w' Hlen Hn E;
    [discriminate|].
  cbn [payload] in E.
  destruct (readBytes w (BUFF_SIZE - n)) as [bs w1] eqn:Er.
  pose proof (read_length _ _ _ _ Er) as Hbs.
  assert (Hlen1 : length (write_at buff n bs) = BUFF_SIZE).
  { rewrite write_at_length; [exact Hlen|]. rewrite Hlen. lia. }
  assert (Hfirst : firstn (if (0 <? length bs)%nat then (n + length bs)%nat
                           else n) (write_at buff n bs)
                   = firstn n buff ++ bs).
  { destruct (Nat.ltb_spec 0 (length bs)) as [Hpos|Hz].
    - unfold write_at. rewrite app_assoc.
      rewrite firstn_app.
      rewrite length_app, length_firstn.
      replace (Nat.min n (length buff)) with n by lia.
      rewrite Nat.sub_diag, firstn_O, app_nil_r.
      apply firstn_all2. rewrite length_app, length_firstn. lia.
    - destruct bs; [|cbn in Hz; lia].
      rewrite write_at_nil, app_nil_r. reflexivity. }
  set (n1 := if (0 <? length bs)%nat then (n + length bs)%nat else n) in *.
  destruct (READ_TIMEOUT <=? millis w1 - startTime); [discriminate|].
  destruct (Nat.ltb_spec n1 BUFF_SIZE) as [Hlt|Hge].
  - destruct (payload fuel startTime (write_at buff n bs) n1 (yield w1))
      as [[[[r' b'] cs1] w'']|] eqn:Erec; [|discriminate].
    injection E as -> <- <- <-.
    rewrite (IH _ _ _ _ _ _ Hlen1 Hlt Erec), Hfirst.
    cbn [length chunks]. rewrite Er. fold n1. cbn [concat].
    rewrite <- app_assoc. reflexivity.
  - injection E as <- <- <-.
    cbn [length chunks]. rewrite Er. cbn [concat]. rewrite app_nil_r.
    rewrite <- Hfirst. symmetry. apply firstn_all2. rewrite Hlen1. exact Hge.
Qed.

(** X15.  When an attempt succeeds, the frame that was read begins with the
    four bytes 42 4D 00 1C, and its last two bytes are the plain sum of its
    first 30 bytes, a number between 171 and 6801: the 16-bit sum of the
    source never wraps.  The fields are stored from that frame. *)
Theorem accepted_frame_header (fuel : nat) (startTime : Z) (d : PMS5003)
    (w : W) (d' : PMS5003) (w' : W) :
  getDataInternal junk fuel startTime d w = Some (0, d', w') ->
  exists rest cs,
    length rest = 28%nat /\
    read_frame junk fuel startTime w
    = Some (Some (x42 :: x4d :: x00 :: x1c :: rest), cs, w') /\
    d' = store_fields (x42 :: x4d :: x00 :: x1c :: rest) d /\
    be16_at (x42 :: x4d :: x00 :: x1c :: rest) 30
    = byte_sum (firstn 30 (x42 :: x4d :: x00 :: x1c :: rest)) /\
    171 <= be16_at (x42 :: x4d :: x00 :: x1c :: rest) 30 <= 6801.
Proof.
  intros E.
  destruct (getDataInternal_cases _ _ _ _ _ _ _ _ E) as (o & cs & Er & Ho).
  destruct o as [buff|]; [|destruct Ho; discriminate].
  destruct Ho as [(_ & Hrc & _)|(Hbad & _ & ->)]; [discriminate|].
  destruct (read_frame_spec _ _ _ _ _ _ _ Er)
    as (cs0 & c & _ & _ & Hlen & _ & _ & H0 & H1).
  apply bad_data_false_iff in Hbad. destruct Hbad as [Hsum Hl].
  destruct buff as [|b0 [|b1 [|b2 [|b3 rest]]]]; try discriminate.
  unfold at_ in H0, H1. cbn [nth] in H0, H1. subst b0 b1.
  unfold length_ok, be16_at in Hl. cbn [nth] in Hl.
  pose proof (b2z_range b2) as R2. pose proof (b2z_range b3) as R3.
  assert (E2 : b2 = x00) by (apply b2z_inj; change (b2z x00) with 0; lia).
  assert (E3 : b3 = x1c) by (apply b2z_inj; change (b2z x1c) with 28; lia).
  subst b2 b3.
  exists rest, cs.
  assert (Hr : length rest = 28%nat)
    by (unfold BUFF_SIZE in Hlen; cbn [length] in Hlen; lia).
  split; [exact Hr|]. split; [exact Er|]. split; [reflexivity|].
  unfold checksum_ok in Hsum.
  assert (Hs : byte_sum (firstn 30 (x42 :: x4d :: x00 :: x1c :: rest))
               = 171 + byte_sum (firstn 26 rest)).
  { change 30%nat with (4 + 26)%nat. cbn [Nat.add firstn].
    rewrite !byte_sum_cons. change (b2z x42) with 66. change (b2z x4d) with 77.
    change (b2z x00) with 0. change (b2z x1c) with 28. lia. }
  pose proof (byte_sum_range (firstn 26 rest)) as Hrange.
  assert (Hl26 : length (firstn 26 rest) = 26%nat)
    by (rewrite length_firstn; lia).
  rewrite Hl26 in Hrange.
  rewrite Hs in *.
  rewrite Z.mod_small in Hsum by lia.
  split; [symmetry; exact Hsum|]. rewrite <- Hsum. lia.
Qed.

(** X16.  The payload is put together from the reads as they come: a buffer
    handed to the validation is the marker 42 4D followed by the bytes of the
    reads of the payload loop, in their order, 30 in all, however many reads
    it took to get them. *)
Theorem frame_is_marker_and_chunks (fuel : nat) (startTime : Z) (w : W)
    (buff : list byte) (cs : list Check) (w' : W) :
  read_frame junk fuel startTime w = Some (Some buff, cs, w') ->
  exists b1 cs1 w1 k,
    resync fuel startTime (write_at (fresh_buff junk) 0 [x00; x00]) 0 w
    = Some (true, b1, cs1, w1) /\
    length cs = (length cs1 + k)%nat /\ (1 <= k)%nat /\
    buff = x42 :: x4d :: concat (chunks k 2 w1) /\
    length (concat (chunks k 2 w1)) = 30%nat.
Proof.
  intros E.
  destruct (read_frame_spec _ _ _ _ _ _ _ E)
    as (cs0 & c & _ & _ & Hlen & _ & _ & _).
  unfold read_frame in E.
  assert (Hl0 : length (write_at (fresh_buff junk) 0 [x00; x00]) = BUFF_SIZE).
  { rewrite write_at_length; rewrite fresh_buff_length; [reflexivity|].
    unfold BUFF_SIZE. cbn [length]. lia. }
  destruct (resync fuel startTime _ 0 w) as [[[[r b1] cs1] w1]|] eqn:Er;
    [|discriminate].
  destruct r; [|discriminate].
  destruct (resync_spec _ _ _ _ _ _ _ _ _ Hl0 (Nat.le_0_l 1) Er)
    as (Hb1 & _ & _ & _ & _ & _ & _ & H0 & H1).
  assert (H2 : (2 < BUFF_SIZE)%nat) by (unfold BUFF_SIZE; lia).
  destruct (payload fuel startTime b1 2 w1) as [[[[r' b'] pcs] w2]|] eqn:Ep;
    [|discriminate].
  destruct r'; [|discriminate].
  injection E as <- <- <-.
  pose proof (payload_chunks _ _ _ _ _ _ _ _ Hb1 H2 Ep) as Hb.
  destruct (payload_spec _ _ _ _ _ _ _ _ _ Hb1 H2 Ep)
    as (_ & _ & pcs0 & pc & Hpcs & _).
  assert (Hf2 : firstn 2 b1 = [x42; x4d]).
  { destruct b1 as [|a [|b b1]]; try discriminate.
    unfold at_ in H0, H1. cbn [nth] in H0, H1. subst. reflexivity. }
  rewrite Hf2 in Hb.
  exists b1, cs1, w1, (length pcs).
  split; [reflexivity|]. split; [apply length_app|]. split.
  - rewrite Hpcs, length_app. cbn [length]. lia.
  - split; [exact Hb|].
    rewrite Hb in Hlen. unfold BUFF_SIZE in Hlen.
    cbn [app length] in Hlen. lia.
Qed.

End Accepted.

(** ** Resynchronisation at work *)

(** X17.  On [Sim], a warmed-up driver reads a valid frame that comes after
    any garbage without a byte 0x42 (0x4D and all other bytes may occur), if
    the reads up to the end of the frame fit in the 800 ms window: [getData]
    returns 1 at its first attempt, the fields are those of the frame, and
    the transport is left with what followed the frame. *)
Theorem getData_reads_frame_after_garbage (junk garbage body rest : list byte)
    (t c : Z) (pins : list (Z * bool)) (d : PMS5003) (fuel : nat) :
  _uart d = true -> _isSleeping d = false ->
  PREHEAT_TIME < t - _wakeUpTime d ->
  Forall (fun b => b <> x42) garbage ->
  length body = 30%nat ->
  checksum_ok (x42 :: x4d :: body) -> length_ok (x42 :: x4d :: body) ->
  0 <= c -> (Z.of_nat (length garbage) + 3) * c < READ_TIMEOUT ->
  (length garbage + 2 <= fuel)%nat ->
  getData junk fuel d
    (mkSim t (garbage ++ (x42 :: x4d :: body) ++ rest) c pins)
  = Some (1, store_fields (x42 :: x4d :: body) d,
          mkSim (t + (Z.of_nat (length garbage) + 3) * c) rest c pins).
Proof.
  intros Hu Hs Ht Hg Hbody Hsum Hlen Hc Hb Hf.
  assert (Hw : warmed_up d
                 (mkSim t (garbage ++ (x42 :: x4d :: body) ++ rest) c pins)).
  { repeat split; auto. }
  rewrite (getData_warmed_up junk fuel d _ Hw).
  unfold TRIES_NUM. rewrite getData_tries_S.
  change (millis (mkSim t (garbage ++ (x42 :: x4d :: body) ++ rest) c pins))
    with t.
  replace fuel with (length garbage + 2 + (fuel - (length garbage + 2)))%nat
    by lia.
  rewrite (getDataInternal_sim_clean_garbage junk garbage body rest t c pins d
             _ Hg Hbody Hc Hb).
  replace (bad_data (x42 :: x4d :: body)) with false.
  - reflexivity.
  - symmetry. apply bad_data_false_iff. split; assumption.
Qed.

(** ** The further properties on runs of the driver *)

(** Construction without a sleep pin at time 5000, asked to start asleep. *)
Lemma constructed_awake_starts_preheat_witness :
  let d1 := fst (PMS5003_HardwareSerial (-1) true pin_driver
                   (world_at 5000 [])) in
  let w1 := snd (PMS5003_HardwareSerial (-1) true pin_driver
                   (world_at 5000 [])) in
  _uart d1 = true /\ _isSleeping d1 = false /\ _isReady d1 = false /\
  _sleepPin d1 = -1 /\ _wakeUpTime d1 = millis w1 /\
  measurement d1 = measurement pin_driver /\
  isReady d1 w1 = (false, d1) /\
  getData stack_junk 0 d1 w1 = Some (-30, d1, w1).
Proof.
  apply (constructed_awake_starts_preheat stack_junk (-1) true pin_driver
           (world_at 5000 []) 0).
  left. reflexivity.
Defined.

(** Construction asleep on pin 5 at time 5000, wake-up at time 90 000. *)
Lemma constructed_asleep_until_WakeUp_witness :
  let d1 := fst (PMS5003_HardwareSerial 5 true awake_driver
                   (world_at 5000 [])) in
  let w1 := snd (PMS5003_HardwareSerial 5 true awake_driver
                   (world_at 5000 [])) in
  w1 = digitalWrite (pinModeOutput (world_at 5000 []) 5) 5 false /\
  isSleeping d1 = true /\
  getData stack_junk 1000 d1 (world_at 90000 frame_1_12)
  = Some (0, d1, world_at 90000 frame_1_12) /\
  isReady d1 (world_at 90000 frame_1_12) = (false, d1) /\
  let d2 := snd (fst (WakeUp d1 (world_at 90000 frame_1_12))) in
  let w2 := snd (WakeUp d1 (world_at 90000 frame_1_12)) in
  fst (fst (WakeUp d1 (world_at 90000 frame_1_12))) = true /\
  w2 = digitalWrite (world_at 90000 frame_1_12) 5 true /\
  isSleeping d2 = false /\
  isReady d2 w2 = (false, d2) /\
  getData stack_junk 1000 d2 w2 = Some (-30, d2, w2).
Proof.
  apply (constructed_asleep_until_WakeUp stack_junk 5 awake_driver
           (world_at 5000 []) (world_at 90000 frame_1_12) 1000).
  vm_compute. discriminate.
Defined.

(** [init] without a sleep pin. *)
Lemma no_pin_never_sleeps_witness :
  let d1 := fst (init (-1) true pin_driver (world_at 5000 [])) in
  snd (init (-1) true pin_driver (world_at 5000 [])) = world_at 5000 [] /\
  isSleeping d1 = false /\
  Sleep stack_junk 1000 d1 (world_at 90000 frame_1_12)
  = Some (false, d1, world_at 90000 frame_1_12) /\
  WakeUp d1 (world_at 90000 frame_1_12)
  = (true, d1, world_at 90000 frame_1_12).
Proof.
  apply (no_pin_never_sleeps stack_junk (-1) true pin_driver
           (world_at 5000 []) (world_at 90000 frame_1_12) 1000).
  reflexivity.
Defined.

(** Sleep at time 40 000, wake-up at 50 000, query at 80 001. *)
Lemma Sleep_then_WakeUp_restarts_preheat_witness :
  let d1 := set_isSleeping (set_isReady pin_driver false) true in
  let d2 := snd (fst (WakeUp d1 (world_at 50000 []))) in
  let w2 := snd (WakeUp d1 (world_at 50000 [])) in
  true = true /\ isSleeping d1 = true /\
  fst (fst (WakeUp d1 (world_at 50000 []))) = true /\
  w2 = digitalWrite (world_at 50000 []) (_sleepPin pin_driver) true /\
  isSleeping d2 = false /\ _wakeUpTime d2 = millis w2 /\
  isReady d2 w2 = (false, d2) /\
  getData stack_junk 1000 d2 w2 = Some (-30, d2, w2) /\
  fst (isReady d2 (world_at 80001 []))
  = (30000 <? millis (world_at 80001 []) - millis w2).
Proof.
  apply (Sleep_then_WakeUp_restarts_preheat stack_junk 1000 pin_driver
           (world_at 40000 []) (world_at 50000 []) (world_at 80001 []) true
           (set_isSleeping (set_isReady pin_driver false) true)
           (mkSim 40000 [] 1 [(5, false)])).
  - vm_compute. discriminate.
  - reflexivity.
  - vm_compute. reflexivity.
Defined.

(** Ready at 30 001 ms, then queried with any clock. *)
Lemma isReady_latched_witness :
  let d1 := snd (isReady awake_driver (world_at 30001 [])) in
  (forall w' : Sim, isReady d1 w' = (true, d1)) /\
  (forall w1 w' : Sim, isReady (snd (fst (WakeUp d1 w1))) w' = (true, d1)) /\
  (forall fuel (w1 : Sim) v d2 w2 (w' : Sim),
     getData stack_junk fuel d1 w1 = Some (v, d2, w2) ->
     isReady d2 w' = (true, d2)).
Proof.
  apply (isReady_latched stack_junk awake_driver (world_at 30001 [])).
  vm_compute. reflexivity.
Defined.

Lemma sleeping_not_ready_kept_witness :
  sleeping_not_ready (fst (init 5 true awake_driver (world_at 0 []))) /\
  sleeping_not_ready (snd (isReady pin_driver (world_at 40000 []))) /\
  sleeping_not_ready (snd (fst (WakeUp pin_driver (world_at 40000 [])))) /\
  (forall r d' w',
     Sleep stack_junk 1000 pin_driver (world_at 40000 []) = Some (r, d', w') ->
     sleeping_not_ready d') /\
  (forall v d' w',
     getData stack_junk 1000 pin_driver (world_at 40000 [])
     = Some (v, d', w') ->
     sleeping_not_ready d').
Proof.
  apply (sleeping_not_ready_kept stack_junk 1000 5 true awake_driver
           pin_driver (world_at 40000 [])).
  unfold sleeping_not_ready. simpl. discriminate.
Defined.

(** A successful call changes the fields and nothing else. *)
Lemma getData_keeps_power_state_witness :
  _isReady (store_fields frame_1_12 awake_driver) = _isReady awake_driver /\
  _isSleeping (store_fields frame_1_12 awake_driver)
  = _isSleeping awake_driver /\
  _uart (store_fields frame_1_12 awake_driver) = _uart awake_driver /\
  _wakeUpTime (store_fields frame_1_12 awake_driver)
  = _wakeUpTime awake_driver /\
  _sleepPin (store_fields frame_1_12 awake_driver) = _sleepPin awake_driver /\
  isSleeping (store_fields frame_1_12 awake_driver) = isSleeping awake_driver /\
  (forall w'' : Sim,
     fst (isReady (store_fields frame_1_12 awake_driver) w'')
     = fst (isReady awake_driver w'')).
Proof.
  apply (getData_keeps_power_state stack_junk 1000 awake_driver
           (world_at 40000 frame_1_12) 1 (store_fields frame_1_12 awake_driver)
           (mkSim 40003 [] 1 [])).
  vm_compute. reflexivity.
Defined.

(** 12 345 ms after wake 17 whole seconds are left. *)
Lemma getData_preheat_seconds_left_witness :
  exists v,
    getData stack_junk 1000 awake_driver (world_at 12345 frame_1_12)
    = Some (v, awake_driver, world_at 12345 frame_1_12) /\
    - 30 <= v <= - 1 /\
    1000 * (- v)
    <= 30000 - (millis (world_at 12345 frame_1_12) - _wakeUpTime awake_driver)
    < 1000 * (- v) + 1000.
Proof.
  apply (getData_preheat_seconds_left stack_junk 1000 awake_driver
           (world_at 12345 frame_1_12)).
  - reflexivity.
  - reflexivity.
  - vm_compute. split; discriminate.
Defined.

Lemma read_frame_stays_in_buffer_witness :
  Forall (fun c => (seen c <= 32)%nat)
    [mkCheck 1 1; mkCheck 1 2; mkCheck 32 3] /\
  length frame_1_12 = 32%nat.
Proof.
  apply (read_frame_stays_in_buffer stack_junk 1000 40000
           (world_at 40000 frame_1_12) (Some frame_1_12)
           [mkCheck 1 1; mkCheck 1 2; mkCheck 32 3] (mkSim 40003 [] 1 [])).
  vm_compute. reflexivity.
Defined.



(** A silent transport, and a call 100 ms before the counter starts again
    from 0. *)
Lemma getData_never_returns_over_clock_wrap_witness :
  getData stack_junk 1000 awake_driver (mkBoard 4294967196 [] 1) = None.
Proof.
  apply (getData_never_returns_over_clock_wrap stack_junk board_silent 1000
           awake_driver (mkBoard 4294967196 [] 1)).
  - exact board_silence.
  - intros w'. apply board_clock_32_bit.
  - reflexivity.
  - unfold warmed_up. vm_compute. repeat split.
  - vm_compute. discriminate.
Defined.

Lemma accepted_frame_header_witness :
  exists rest cs,
    length rest = 28%nat /\
    read_frame stack_junk 1000 40000 (world_at 40000 frame_1_12)
    = Some (Some (x42 :: x4d :: x00 :: x1c :: rest), cs, mkSim 40003 [] 1 []) /\
    store_fields frame_1_12 awake_driver
    = store_fields (x42 :: x4d :: x00 :: x1c :: rest) awake_driver /\
    be16_at (x42 :: x4d :: x00 :: x1c :: rest) 30
    = byte_sum (firstn 30 (x42 :: x4d :: x00 :: x1c :: rest)) /\
    171 <= be16_at (x42 :: x4d :: x00 :: x1c :: rest) 30 <= 6801.
Proof.
  apply (accepted_frame_header stack_junk 1000 40000 awake_driver
           (world_at 40000 frame_1_12) (store_fields frame_1_12 awake_driver)
           (mkSim 40003 [] 1 [])).
  vm_compute. reflexivity.
Defined.

Lemma frame_is_marker_and_chunks_witness :
  exists b1 cs1 w1 k,
    resync 1000 40000 (write_at (fresh_buff stack_junk) 0 [x00; x00]) 0
      (world_at 40000 frame_1_12)
    = Some (true, b1, cs1, w1) /\
    length [mkCheck 1 1; mkCheck 1 2; mkCheck 32 3] = (length cs1 + k)%nat /\
    (1 <= k)%nat /\
    frame_1_12 = x42 :: x4d :: concat (chunks k 2 w1) /\
    length (concat (chunks k 2 w1)) = 30%nat.
Proof.
  apply (frame_is_marker_and_chunks stack_junk 1000 40000
           (world_at 40000 frame_1_12) frame_1_12
           [mkCheck 1 1; mkCheck 1 2; mkCheck 32 3] (mkSim 40003 [] 1 [])).
  vm_compute. reflexivity.
Defined.

(** The frame [frame_1_12] after the garbage 41 4D. *)
Lemma getData_reads_frame_after_garbage_witness :
  getData stack_junk 1000 awake_driver
    (mkSim 40000 ([x41; x4d] ++ (x42 :: x4d :: skipn 2 frame_1_12) ++ []) 1 [])
  = Some (1, store_fields (x42 :: x4d :: skipn 2 frame_1_12) awake_driver,
          mkSim (40000 + (Z.of_nat (length [x41; x4d]) + 3) * 1) [] 1 []).
Proof.
  apply (getData_reads_frame_after_garbage stack_junk [x41; x4d]
           (skipn 2 frame_1_12) [] 40000 1 [] awake_driver 1000).
  - reflexivity.
  - reflexivity.
  - reflexivity.
  - repeat constructor; discriminate.
  - reflexivity.
  - vm_compute. reflexivity.
  - vm_compute. reflexivity.
  - lia.
  - vm_compute. reflexivity.
  - vm_compute. lia.
Defined.
